(** * Mattermost Toolchain Poster: sender resolution, halt gate and posting

    A shallow embedding of [src/index.ts] (plugin version 1.3.14) and of the
    parts of [src/mattermost.ts] its handlers call.

    - Module-level tables ([sessionSenders], [stoppedSessions],
      [pendingCalls]) and the variable [lastSessionKey] are the fields of one
      explicit [World]; the closure built by [register] is the record
      [Plugin].
    - Handlers are computations in a small state-and-exception monad, so
      that what a [try]/[catch] swallows and what leaves a handler can be
      read off the result.  A handler runs from start to end without another
      handler in between, and reads the clock once: [now] stands for every
      [Date.now()] of one run.
    - Optional strings are [option string]; [Js.truthy] is JavaScript's
      truthiness on them ([undefined] and [""] are falsy).
    - The bot-account registry is a JavaScript [Map], whose order
      [getClient] depends on: a list of pairs with [Map.set]'s update in
      place.  The other tables are [gmap]s and a [gset].
    - The formatting module and the chat server are parameters of the
      handlers. *)

From Stdlib Require Import ZArith String Ascii List Bool DecimalString.
From stdpp Require Import base option gmap strings list.

Local Open Scope string_scope.
Local Open Scope Z_scope.

(** ** JavaScript values used by the plugin *)

Module Js.

(** An optional string field: [None] is [undefined]. *)
Definition truthy (o : option string) : bool :=
  match o with
  | Some s => negb (String.eqb s "")
  | None => false
  end.

(** [a || b] on optional strings. *)
Definition or_else (a b : option string) : option string :=
  if truthy a then a else b.

(** [a ?? b] with a string default. *)
Definition nullish (a : option string) (b : string) : string :=
  match a with
  | Some s => s
  | None => b
  end.

(** [s.startsWith(p)]. *)
Definition startsWith (s p : string) : bool := String.prefix p s.

(** [s.includes(p)]. *)
Fixpoint includes (s p : string) : bool :=
  if String.prefix p s then true
  else match s with
       | EmptyString => false
       | String _ rest => includes rest p
       end.

(** The remainder of [s] after the literal prefix [p], when [s] starts
    with it. *)
Fixpoint stripPrefix (p s : string) : option string :=
  match p with
  | EmptyString => Some s
  | String a p' =>
      match s with
      | EmptyString => None
      | String b s' => if Ascii.eqb a b then stripPrefix p' s' else None
      end
  end.

(** The longest run of characters other than a colon at the start of
    [s]: what the group [[^:]+] captures once it matches. *)
Fixpoint takeNonColon (s : string) : string :=
  match s with
  | EmptyString => EmptyString
  | String c rest =>
      if Ascii.eqb c ":"%char then EmptyString
      else String c (takeNonColon rest)
  end.

(** [s.match(/^<p>([^:]+)/)?.[1]] for a literal prefix [p]. *)
Definition matchAfter (p s : string) : option string :=
  match stripPrefix p s with
  | Some rest =>
      let g := takeNonColon rest in
      if String.eqb g "" then None else Some g
  | None => None
  end.

(** [String(n)] for an integer. *)
Definition numberToString (n : Z) : string :=
  NilZero.string_of_int (Z.to_int n).

End Js.

(** ** The bot-account registry: a JS [Map] in insertion order *)

Record BotAccount := mkBotAccount {
  token : string;
  url : option string
}.

Module JsMap.

Section WithValue.
Context {V : Type}.

(** [m.get(k)]. *)
Fixpoint get (m : list (string * V)) (k : string) : option V :=
  match m with
  | [] => None
  | (k', v) :: rest => if String.eqb k' k then Some v else get rest k
  end.

(** [m.set(k, v)]: an existing key keeps its position, a new key goes
    last. *)
Fixpoint set (m : list (string * V)) (k : string) (v : V)
  : list (string * V) :=
  match m with
  | [] => [(k, v)]
  | (k', v') :: rest =>
      if String.eqb k' k then (k', v) :: rest
      else (k', v') :: set rest k v
  end.

(** [[...m.values()][0]]. *)
Definition firstValue (m : list (string * V)) : option V :=
  match m with
  | [] => None
  | (_, v) :: _ => Some v
  end.

(** [m.size === 0]. *)
Definition isEmpty (m : list (string * V)) : bool :=
  match m with
  | [] => true
  | _ :: _ => false
  end.

End WithValue.

End JsMap.

(** ** Configuration as [register] reads it *)

Record MattermostAccount := mkMattermostAccount {
  acc_botToken : option string;
  acc_baseUrl : option string;
  acc_name : option string
}.

Record PluginConfig := mkPluginConfig {
  cfg_webhookUrl : option string;
  cfg_baseUrl : option string;
  cfg_botToken : option string;
  cfg_channel : option string;
  cfg_username : option string;
  cfg_iconUrl : option string;
  cfg_iconEmoji : option string;
  cfg_includeResults : option bool;
  cfg_truncateResultsAt : option Z;
  cfg_maxLines : option Z;
  cfg_excludeTools : option (list string);
  cfg_postToConversation : option bool;
  cfg_enableHaltCommands : option bool
}.

(** [process.env]: the three variables the plugin reads. *)
Record Env := mkEnv {
  MATTERMOST_URL : option string;
  MATTERMOST_BOT_TOKEN : option string;
  MATTERMOST_WEBHOOK_URL : option string
}.

(** [api.config] together with the environment.  [channelAccounts] is
    [channels.mattermost.accounts] in [Object.entries] order. *)
Record FullConfig := mkFullConfig {
  channelAccounts : option (list (string * MattermostAccount));
  channelUrl : option string;
  pluginConfig : PluginConfig;
  env : Env
}.

(** ** The client of [mattermost.ts] *)

Record MattermostClient := mkClient {
  cl_webhookUrl : option string;
  cl_baseUrl : option string;
  cl_botToken : option string;
  cl_channel : option string;
  cl_username : option string;
  cl_iconEmoji : option string;
  cl_iconUrl : option string
}.

(** [hasRestApi()]. *)
Definition hasRestApi (c : MattermostClient) : bool :=
  Js.truthy (cl_baseUrl c) && Js.truthy (cl_botToken c).

(** ** The closure built by [register] *)

Record Plugin := mkPlugin {
  botAccounts : list (string * BotAccount);
  defaultBaseUrl : option string;
  webhookUrl : option string;
  plConfig : PluginConfig;
  excludedTools : list string;
  includeResults : bool;
  truncateAt : Z;
  maxLines : Z;
  postToConversation : bool;
  enableHaltCommands : bool;
  commandsRegistered : bool
}.

(** The loop over [Object.entries(mattermostChannel.accounts)]: an account
    with a bot token is stored under its key and, when it has a name, under
    that name as well. *)
Fixpoint addChannelAccounts (dflt : option string)
    (entries : list (string * MattermostAccount))
    (m : list (string * BotAccount)) : list (string * BotAccount) :=
  match entries with
  | [] => m
  | (accountName, account) :: rest =>
      let m1 :=
        if Js.truthy (acc_botToken account) then
          let a := {| token := Js.nullish (acc_botToken account) "";
                      url := Js.or_else (acc_baseUrl account) dflt |} in
          let m0 := JsMap.set m accountName a in
          if Js.truthy (acc_name account)
          then JsMap.set m0 (Js.nullish (acc_name account) "") a
          else m0
        else m in
      addChannelAccounts dflt rest m1
  end.

Definition computeDefaultBaseUrl (fc : FullConfig) : option string :=
  Js.or_else (channelUrl fc)
    (Js.or_else (cfg_baseUrl (pluginConfig fc)) (MATTERMOST_URL (env fc))).

Definition computeWebhookUrl (fc : FullConfig) : option string :=
  Js.or_else (cfg_webhookUrl (pluginConfig fc))
    (MATTERMOST_WEBHOOK_URL (env fc)).

(** The registry [register] builds: the channel accounts, then the
    plugin-config or environment token under the key ["default"]. *)
Definition buildBotAccounts (fc : FullConfig) : list (string * BotAccount) :=
  let dflt := computeDefaultBaseUrl fc in
  let m :=
    match channelAccounts fc with
    | Some entries => addChannelAccounts dflt entries []
    | None => []
    end in
  let envToken :=
    Js.or_else (cfg_botToken (pluginConfig fc)) (MATTERMOST_BOT_TOKEN (env fc)) in
  if Js.truthy envToken
  then JsMap.set m "default" {| token := Js.nullish envToken ""; url := dflt |}
  else m.

(** [register(api)]: [None] is the early return taken when nothing is
    configured, before any hook or command is installed.
    [hasRegisterCommand] says whether [api.registerCommand] exists. *)
Definition register (fc : FullConfig) (hasRegisterCommand : bool)
  : option Plugin :=
  let accounts := buildBotAccounts fc in
  let hook := computeWebhookUrl fc in
  if JsMap.isEmpty accounts && negb (Js.truthy hook) then None
  else
    let pc := pluginConfig fc in
    let halt := default false (cfg_enableHaltCommands pc) in
    Some {| botAccounts := accounts;
            defaultBaseUrl := computeDefaultBaseUrl fc;
            webhookUrl := hook;
            plConfig := pc;
            excludedTools := default ["message"] (cfg_excludeTools pc);
            includeResults := default true (cfg_includeResults pc);
            truncateAt := default 2000 (cfg_truncateResultsAt pc);
            maxLines := default 20 (cfg_maxLines pc);
            postToConversation := default true (cfg_postToConversation pc);
            enableHaltCommands := halt;
            commandsRegistered := halt && hasRegisterCommand |}.

(** [extractAgentFromSessionKey]: ["agent:ops:main"] and
    ["session:agent:ops:main"] both give ["ops"]. *)
Definition extractAgentFromSessionKey (sessionKey : option string)
  : option string :=
  match sessionKey with
  | None => None
  | Some sk =>
      if String.eqb sk "" then None
      else match Js.matchAfter "agent:" sk with
           | Some g => Some g
           | None => Js.matchAfter "session:agent:" sk
           end
  end.

(** The account [getClient] settles on, with the name it reports. *)
Definition selectAccount (accounts : list (string * BotAccount))
    (agentId : option string) : option BotAccount * string :=
  let account :=
    if Js.truthy agentId then JsMap.get accounts (Js.nullish agentId "")
    else None in
  let selectedAccountName :=
    if Js.truthy agentId then Js.nullish agentId "" else "unknown" in
  match account with
  | Some a => (Some a, selectedAccountName)
  | None =>
      let account' :=
        match JsMap.get accounts "default" with
        | Some d => Some d
        | None => JsMap.firstValue accounts
        end in
      (account', match account' with Some _ => "default" | None => "none" end)
  end.

(** [getClient(sessionKey)]. *)
Definition getClient (p : Plugin) (sessionKey : option string)
  : option MattermostClient * string :=
  let agentId := extractAgentFromSessionKey sessionKey in
  let '(account, selectedAccountName) := selectAccount (botAccounts p) agentId in
  let tok := token <$> account in
  if negb (Js.truthy tok) && negb (Js.truthy (webhookUrl p)) then
    (None, selectedAccountName)
  else
    (Some {| cl_webhookUrl := webhookUrl p;
             cl_baseUrl := Js.or_else (account ≫= url) (defaultBaseUrl p);
             cl_botToken := tok;
             cl_channel := cfg_channel (plConfig p);
             cl_username := Some (Js.nullish (cfg_username (plConfig p)) "OpenClaw Agent");
             cl_iconEmoji := Some (Js.nullish (cfg_iconEmoji (plConfig p)) ":robot:");
             cl_iconUrl := cfg_iconUrl (plConfig p) |},
     selectedAccountName).

(** ** Module-level state and the outside world *)

(** A value of [sessionSenders]. *)
Record SenderEntry := mkEntry {
  senderId : string;
  timestamp : Z
}.

(** A value of [pendingCalls]. *)
Record PendingCall := mkPending {
  postId : option string;
  toolName : string;
  startTime : Z
}.

(** A call made on a client; [postLog] keeps them in order. *)
Inductive PostCall :=
| PostToDm (userId text : string)
| PostToWebhook (text : string).

(** What the chat server does with a call that reaches it. *)
Inductive Outcome :=
| Posted (id : option string)
| Failed (err : string).

(** [sessionSenders], [stoppedSessions] and [pendingCalls] are module-level
    in the source, [lastSessionKey] is local to [register]; [postLog] is
    the observable record of the calls made on clients. *)
Record World := mkWorld {
  sessionSenders : gmap string SenderEntry;
  stoppedSessions : gset string;
  pendingCalls : gmap string PendingCall;
  lastSessionKey : option string;
  postLog : list PostCall
}.

Definition initialWorld : World :=
  {| sessionSenders := ∅; stoppedSessions := ∅; pendingCalls := ∅;
     lastSessionKey := None; postLog := [] |}.

Definition with_sessionSenders (t : gmap string SenderEntry) (w : World) : World :=
  {| sessionSenders := t; stoppedSessions := stoppedSessions w;
     pendingCalls := pendingCalls w; lastSessionKey := lastSessionKey w;
     postLog := postLog w |}.

Definition with_stoppedSessions (s : gset string) (w : World) : World :=
  {| sessionSenders := sessionSenders w; stoppedSessions := s;
     pendingCalls := pendingCalls w; lastSessionKey := lastSessionKey w;
     postLog := postLog w |}.

Definition with_pendingCalls (c : gmap string PendingCall) (w : World) : World :=
  {| sessionSenders := sessionSenders w; stoppedSessions := stoppedSessions w;
     pendingCalls := c; lastSessionKey := lastSessionKey w;
     postLog := postLog w |}.

Definition with_lastSessionKey (k : option string) (w : World) : World :=
  {| sessionSenders := sessionSenders w; stoppedSessions := stoppedSessions w;
     pendingCalls := pendingCalls w; lastSessionKey := k;
     postLog := postLog w |}.

Definition with_postLog (l : list PostCall) (w : World) : World :=
  {| sessionSenders := sessionSenders w; stoppedSessions := stoppedSessions w;
     pendingCalls := pendingCalls w; lastSessionKey := lastSessionKey w;
     postLog := l |}.

(** ** Computations that may throw *)

Inductive Res (A : Type) :=
| Ret (a : A)
| Throw (e : string).
Arguments Ret {A} a.
Arguments Throw {A} e.

(** A handler body: it reads and writes the world and either returns or
    throws; what it wrote before throwing stays written. *)
Definition M (A : Type) : Type := World → Res A * World.

Definition ret {A} (a : A) : M A := fun w => (Ret a, w).

Definition throw {A} (e : string) : M A := fun w => (Throw e, w).

Definition bind {A B} (m : M A) (k : A → M B) : M B :=
  fun w =>
    match m w with
    | (Ret a, w') => k a w'
    | (Throw e, w') => (Throw e, w')
    end.

(** [try { m } catch (e) { h e }]. *)
Definition tryCatch {A} (m : M A) (h : string → M A) : M A :=
  fun w =>
    match m w with
    | (Ret a, w') => (Ret a, w')
    | (Throw e, w') => h e w'
    end.

Definition modify (f : World → World) : M unit := fun w => (Ret (), f w).

Definition gets {A} (f : World → A) : M A := fun w => (Ret (f w), w).

(** The usual notations: [x ← m; k] and [m;; k]. *)
#[global] Instance M_ret : MRet M := @ret.
#[global] Instance M_bind : MBind M := fun A B k m => bind m k.

(** ** Events delivered by the host *)

Record MessageEvent := mkMessageEvent {
  ev_from : string;
  ev_content : string;
  meta_senderId : option string;
  meta_sessionKey : option string
}.

Record MessageContext := mkMessageContext {
  mc_channelId : option string;
  mc_accountId : option string;
  mc_conversationId : option string
}.

Record ToolContext := mkToolContext {
  tc_agentId : option string;
  tc_sessionKey : option string;
  tc_toolName : string
}.

Record PluginCommandContext := mkCommandContext {
  cc_senderId : option string;
  cc_channel : string;
  cc_args : option string
}.

Record ToolDetails := mkToolDetails {
  det_status : option string;
  det_exitCode : option Z;
  det_durationMs : option Z;
  det_aggregated : option string
}.

(** [content] holds the [text] of each part. *)
Record ToolMessage := mkToolMessage {
  msg_role : string;
  msg_content : list string;
  msg_details : option ToolDetails;
  msg_isError : option bool
}.

Record ToolResultPersistEvent := mkToolResultEvent {
  tr_toolName : string;
  tr_toolCallId : string;
  tr_message : ToolMessage
}.

(** The second argument of [formatToolResult]: [{ error: text }] or the
    text itself. *)
Inductive ToolResultValue :=
| ErrorResult (error : string)
| TextResult (text : string).

(** What [before_tool_call] hands back to the host besides [undefined]. *)
Record BlockDirective := mkBlock {
  block : bool;
  blockReason : string
}.

(** ** Sender links *)

Definition FRESH_MS : Z := 30 * 60 * 1000.

(** The key written next to a session key that lacks the ["agent:"]
    prefix; a key that has it is its own normal form. *)
Definition normalizedKey (sessionKey : string) : string :=
  if Js.startsWith sessionKey "agent:" then sessionKey
  else "agent:" +:+ sessionKey.

(** The writes of [message_received] once [senderId] is known to be set
    ([index.ts], the body of [if (senderId)]). *)
Definition recordSender (tbl : gmap string SenderEntry)
    (sessionKey accountId : option string) (sender : string) (now : Z)
  : gmap string SenderEntry :=
  let entry := {| senderId := sender; timestamp := now |} in
  let tbl1 :=
    if Js.truthy sessionKey then
      let sk := Js.nullish sessionKey "" in
      let t0 := <[sk := entry]> tbl in
      if negb (Js.startsWith sk "agent:")
      then <["agent:" +:+ sk := entry]> t0
      else t0
    else tbl in
  if Js.truthy accountId then
    let a := Js.nullish accountId "" in
    <["agent:" +:+ a +:+ ":main" := entry]> (<[a := entry]> tbl1)
  else tbl1.

(** [ctx.sessionKey?.includes(':subagent:') || ctx.sessionKey?.includes(':cron:')]. *)
Definition isSubagent (sessionKey : option string) : bool :=
  match sessionKey with
  | Some sk => Js.includes sk ":subagent:" || Js.includes sk ":cron:"
  | None => false
  end.

Definition isFresh (now recordedAt : Z) : bool := now - recordedAt <? FRESH_MS.

(** Step 3 of [before_tool_call], repeated word for word in [postResult]:
    the session's own link, else the account's link while it is fresh and
    the session is not background work. *)
Definition resolveSender (tbl : gmap string SenderEntry)
    (sessionKey : option string) (accountName : string) (now : Z)
  : option string :=
  match tbl !! Js.nullish sessionKey "" with
  | Some sessionEntry => Some (senderId sessionEntry)
  | None =>
      match tbl !! accountName with
      | Some accountEntry =>
          if isFresh now (timestamp accountEntry) && negb (isSubagent sessionKey)
          then Some (senderId accountEntry)
          else None
      | None => None
      end
  end.

Definition HALT_TEXT : string :=
  "🛑 Agent halted. Tool calls will be blocked until you send a new message.".
Definition RESUMED_TEXT : string := "▶️ Agent resumed. Tool calls are now enabled.".
Definition NOT_HALTED_TEXT : string := "Agent is not currently halted.".
Definition BLOCK_REASON : string := "Agent interaction halted via /halt command.".

(** ** Handlers *)

Section Handlers.

(** The formatting module and the chat server are collaborators: the
    handlers are defined for any of them.  [net c h call] is the server's
    answer to [call] made on client [c] after the calls [h]. *)
Context {Params : Type}.
Variable formatToolCall : string → Params → string.
Variable formatToolResult : string → ToolResultValue → Z → Z → Z → string.
Variable net : MattermostClient → list PostCall → PostCall → Outcome.

Record BeforeToolCallEvent := mkBeforeEvent {
  bt_toolName : string;
  bt_params : Params
}.

Definition logCall (call : PostCall) : M unit :=
  modify (fun w => with_postLog (postLog w ++ [call]) w).

(** [client.postToDm]: [getDmChannel] throws without REST credentials,
    otherwise the outcome is the server's.  Every client is fresh from
    [getClient], so its channel cache is empty. *)
Definition postToDm (c : MattermostClient) (userId text : string)
  : M (option string) :=
  h ← gets postLog;
  logCall (PostToDm userId text);;
  if negb (hasRestApi c) then throw "REST API requires baseUrl and botToken"
  else match net c h (PostToDm userId text) with
       | Posted id => ret id
       | Failed e => throw e
       end.

(** [client.postToWebhook]: throws without a webhook URL; a successful
    post returns [undefined]. *)
Definition postToWebhook (c : MattermostClient) (text : string)
  : M (option string) :=
  h ← gets postLog;
  logCall (PostToWebhook text);;
  if negb (Js.truthy (cl_webhookUrl c)) then throw "Webhook posting requires webhookUrl"
  else match net c h (PostToWebhook text) with
       | Posted _ => ret None
       | Failed e => throw e
       end.

Variable p : Plugin.

(** Handler of the [halt] command. *)
Definition halt (ctx : PluginCommandContext) : M string :=
  let sessionKey := Js.nullish (cc_senderId ctx) "default" in
  modify (fun w => with_stoppedSessions ({[sessionKey]} ∪ stoppedSessions w) w);;
  match fst (getClient p None) with
  | Some client =>
      if hasRestApi client && Js.truthy (cc_senderId ctx)
      then postToDm client (Js.nullish (cc_senderId ctx) "") HALT_TEXT;; ret HALT_TEXT
      else ret HALT_TEXT
  | None => ret HALT_TEXT
  end.

(** Handler of the [unhalt] command. *)
Definition unhalt (ctx : PluginCommandContext) : M string :=
  let sessionKey := Js.nullish (cc_senderId ctx) "default" in
  stopped ← gets stoppedSessions;
  if bool_decide (sessionKey ∈ stopped) then
    modify (fun w => with_stoppedSessions (stoppedSessions w ∖ {[sessionKey]}) w);;
    ret RESUMED_TEXT
  else ret NOT_HALTED_TEXT.

(** Hook [message_received]; [now] is [Date.now()]. *)
Definition message_received (event : MessageEvent) (ctx : MessageContext)
    (now : Z) : M unit :=
  let sender := meta_senderId event in
  let sessionKey := Js.or_else (meta_sessionKey event) (mc_conversationId ctx) in
  let accountId := mc_accountId ctx in
  (if Js.truthy sender then
     modify (fun w =>
       with_sessionSenders
         (recordSender (sessionSenders w) sessionKey accountId
            (Js.nullish sender "") now) w)
   else ret ());;
  if Js.truthy sender
     && negb (Js.startsWith (ev_content event) "/halt")
     && negb (Js.startsWith (ev_content event) "/unhalt")
  then
    stopped ← gets stoppedSessions;
    if bool_decide (Js.nullish sender "" ∈ stopped) then
      modify (fun w =>
        with_stoppedSessions (stoppedSessions w ∖ {[Js.nullish sender ""]}) w)
    else ret ()
  else ret ().

(** The first post of a handler: the recipient's direct channel when
    there is one to use, the webhook otherwise. *)
Definition postDirectOrWebhook (client : MattermostClient)
    (sender : option string) (message : string) : M (option string) :=
  if postToConversation p && hasRestApi client && Js.truthy sender
  then postToDm client (Js.nullish sender "") message
  else postToWebhook client message.

(** Hook [before_tool_call]; [now] is [Date.now()]. *)
Definition before_tool_call (event : BeforeToolCallEvent) (ctx : ToolContext)
    (now : Z) : M (option BlockDirective) :=
  let tool := bt_toolName event in
  modify (with_lastSessionKey (tc_sessionKey ctx));;
  if bool_decide (tool ∈ excludedTools p) then ret None
  else
    let message := formatToolCall tool (bt_params event) in
    let '(client, accountName) := getClient p (tc_sessionKey ctx) in
    match client with
    | None => ret None
    | Some client =>
        tbl ← gets sessionSenders;
        let sender := resolveSender tbl (tc_sessionKey ctx) accountName now in
        stopped ← gets stoppedSessions;
        if enableHaltCommands p && Js.truthy sender
           && bool_decide (Js.nullish sender "" ∈ stopped)
        then ret (Some {| block := true; blockReason := BLOCK_REASON |})
        else
          let toolCallId :=
            Js.nullish (tc_sessionKey ctx) "default" +:+ "-" +:+ tool
              +:+ "-" +:+ Js.numberToString now in
          tryCatch
            (id ← postDirectOrWebhook client sender message;
             modify (fun w =>
               with_pendingCalls
                 (<[toolCallId := {| postId := id; toolName := tool;
                                     startTime := now |}]> (pendingCalls w)) w))
            (fun _ =>
               tryCatch (postToWebhook client message;; ret ())
                        (fun _ => ret ()));;
          ret None
    end.

(** [msg?.content?.[0]?.text || msg?.details?.aggregated || '']. *)
Definition resultTextOf (msg : ToolMessage) : string :=
  let first := head (msg_content msg) in
  let aggregated := msg_details msg ≫= det_aggregated in
  if Js.truthy first then Js.nullish first ""
  else if Js.truthy aggregated then Js.nullish aggregated ""
  else "".

(** The async function [postResult] of [tool_result_persist]. *)
Definition postResult (formattedMessage : string) (now : Z) : M unit :=
  tryCatch
    (key ← gets lastSessionKey;
     let '(client, accountName) := getClient p key in
     match client with
     | None => ret ()
     | Some client =>
         tbl ← gets sessionSenders;
         let sender := resolveSender tbl key accountName now in
         postDirectOrWebhook client sender formattedMessage;; ret ()
     end)
    (fun _ =>
       tryCatch
         (key ← gets lastSessionKey;
          match fst (getClient p key) with
          | Some fallbackClient =>
              postToWebhook fallbackClient formattedMessage;; ret ()
          | None => ret ()
          end)
         (fun _ => ret ())).

(** Hook [tool_result_persist]: synchronous, it starts [postResult],
    attaches [.catch(console.error)] and returns [undefined]. *)
Definition tool_result_persist (event : ToolResultPersistEvent) (now : Z)
  : M unit :=
  let msg := tr_message event in
  let resultText := resultTextOf msg in
  let isError := default false (msg_isError msg) in
  let durationMs := default 0 (msg_details msg ≫= det_durationMs) in
  if negb (includeResults p) || bool_decide (tr_toolName event ∈ excludedTools p)
  then ret ()
  else
    let formattedMessage :=
      formatToolResult (tr_toolName event)
        (if isError then ErrorResult resultText else TextResult resultText)
        durationMs (truncateAt p) (maxLines p) in
    tryCatch (postResult formattedMessage now) (fun _ => ret ()).

(** The message [tool_result_persist] posts for an event. *)
Definition resultMessage (event : ToolResultPersistEvent) : string :=
  let msg := tr_message event in
  formatToolResult (tr_toolName event)
    (if default false (msg_isError msg)
     then ErrorResult (resultTextOf msg) else TextResult (resultTextOf msg))
    (default 0 (msg_details msg ≫= det_durationMs))
    (truncateAt p) (maxLines p).

(** What the host can deliver.  The two commands exist only when
    [register] installed them. *)
Inductive HostEvent :=
| MessageReceived (event : MessageEvent) (ctx : MessageContext) (now : Z)
| BeforeToolCall (event : BeforeToolCallEvent) (ctx : ToolContext) (now : Z)
| ToolResultPersist (event : ToolResultPersistEvent) (now : Z)
| HaltCommand (ctx : PluginCommandContext)
| UnhaltCommand (ctx : PluginCommandContext).

(** The world after the host delivered one event. *)
Definition step (w : World) (e : HostEvent) : World :=
  match e with
  | MessageReceived event ctx now => snd (message_received event ctx now w)
  | BeforeToolCall event ctx now => snd (before_tool_call event ctx now w)
  | ToolResultPersist event now => snd (tool_result_persist event now w)
  | HaltCommand ctx => if commandsRegistered p then snd (halt ctx w) else w
  | UnhaltCommand ctx => if commandsRegistered p then snd (unhalt ctx w) else w
  end.

Definition run (w : World) (events : list HostEvent) : World :=
  foldl step w events.

End Handlers.

Arguments MessageReceived {Params} event ctx now.
Arguments ToolResultPersist {Params} event now.
Arguments HaltCommand {Params} ctx.
Arguments UnhaltCommand {Params} ctx.

(** [stoppedSessions.has(recipient)]. *)
Definition isHalted (w : World) (recipient : string) : bool :=
  bool_decide (recipient ∈ stoppedSessions w).

(** The keys [recordSender] writes for a message with the given session
    key and account. *)
Definition linkKeys (sessionKey accountId : option string) : list string :=
  (if Js.truthy sessionKey
   then [Js.nullish sessionKey ""; normalizedKey (Js.nullish sessionKey "")]
   else [])
  ++ (if Js.truthy accountId
      then [Js.nullish accountId ""; "agent:" +:+ Js.nullish accountId "" +:+ ":main"]
      else []).

(** The keys a delivered event writes in [sessionSenders]. *)
Definition writtenKeys {Params} (e : @HostEvent Params) : list string :=
  match e with
  | MessageReceived event ctx _ =>
      if Js.truthy (meta_senderId event)
      then linkKeys (Js.or_else (meta_sessionKey event) (mc_conversationId ctx))
                    (mc_accountId ctx)
      else []
  | _ => []
  end.

(** ** The formatting module ([formatters.js]) *)

(** A parameter value as [formatValue] tells them apart.  Numbers are the
    integers; characters stand for UTF-16 code units. *)
#[local] Unset Elimination Schemes.
Inductive JsValue :=
| VString (s : string)
| VNumber (n : Z)
| VBool (b : bool)
| VArray (items : list JsValue)
| VObject (fields : list (string * JsValue))
| VNull
| VUndefined.
#[local] Set Elimination Schemes.

Module Formatters.

(** The line separator ['\n']. *)
Definition newline : ascii := "010"%char.

(** [text.slice(0, stop)] for an integer [stop]: a negative [stop] counts
    from the end. *)
Definition sliceTo (text : string) (stop : Z) : string :=
  let len := Z.of_nat (String.length text) in
  let stop' := if stop <? 0 then Z.max (len + stop) 0 else Z.min stop len in
  String.substring 0 (Z.to_nat stop') text.

(** [items.slice(0, stop)] on an array. *)
Definition sliceListTo {A} (items : list A) (stop : Z) : list A :=
  let len := Z.of_nat (length items) in
  let stop' := if stop <? 0 then Z.max (len + stop) 0 else Z.min stop len in
  take (Z.to_nat stop') items.

(** [truncateText(text, maxLength)]. *)
Definition truncateText (text : string) (maxLength : Z) : string :=
  if Z.of_nat (String.length text) <=? maxLength then text
  else sliceTo text maxLength +:+ "...".

(** [text.split('\n')]. *)
Fixpoint splitLines (text : string) : list string :=
  match text with
  | EmptyString => [EmptyString]
  | String c rest =>
      if Ascii.eqb c newline then EmptyString :: splitLines rest
      else match splitLines rest with
           | [] => [String c EmptyString]
           | line :: lines => String c line :: lines
           end
  end.

(** [lines.join('\n')]. *)
Fixpoint joinLines (lines : list string) : string :=
  match lines with
  | [] => EmptyString
  | [line] => line
  | line :: rest => line +:+ String newline (joinLines rest)
  end.

(** [parts.join(', ')]. *)
Fixpoint joinComma (parts : list string) : string :=
  match parts with
  | [] => EmptyString
  | [part] => part
  | part :: rest => part +:+ ", " +:+ joinComma rest
  end.

(** The last line [truncateLines] appends. *)
Definition moreLines (remaining : Z) : string :=
  "... (" +:+ Js.numberToString remaining +:+ " more lines)".

(** [truncateLines(text, maxLines)]. *)
Definition truncateLines (text : string) (maxLines : Z) : string :=
  let lines := splitLines text in
  if Z.of_nat (length lines) <=? maxLines then text
  else
    let truncated := joinLines (sliceListTo lines maxLines) in
    let remaining := Z.of_nat (length lines) - maxLines in
    truncated +:+ String newline (moreLines remaining).

(** [formatValue(value)]. *)
Definition formatValue (value : JsValue) : string :=
  match value with
  | VString s => "`" +:+ truncateText s 100 +:+ "`"
  | VNumber n => "`" +:+ Js.numberToString n +:+ "`"
  | VBool b => "`" +:+ (if b then "true" else "false") +:+ "`"
  | VArray items =>
      "[" +:+ Js.numberToString (Z.of_nat (length items)) +:+ " items]"
  | VObject fields =>
      "{" +:+ Js.numberToString (Z.of_nat (length fields)) +:+ " keys}"
  | VNull => "null"
  | VUndefined => "undefined"
  end.

(** [formatParamsCompact(params)]; [params] lists the own keys of the object
    in [Object.keys] order. *)
Definition formatParamsCompact (params : list (string * JsValue)) : string :=
  match params with
  | [] => "(no params)"
  | [(key, value)] => "`" +:+ key +:+ "`: " +:+ formatValue value
  | _ =>
      let pairs := map (fun kv => kv.1 +:+ "=" +:+ formatValue kv.2) params in
      truncateText (joinComma pairs) 200
  end.

(** [formatToolCall(toolName, params)]. *)
Definition formatToolCall (toolName : string) (params : list (string * JsValue))
  : string :=
  ":wrench: **" +:+ toolName +:+ "**" +:+ String newline "> "
    +:+ formatParamsCompact params.

End Formatters.

(** ** The webhook payload ([mattermost.ts]) *)

Record MattermostPayload := mkPayload {
  pl_text : string;
  pl_channel : option string;
  pl_username : option string;
  pl_icon_url : option string;
  pl_icon_emoji : option string
}.

(** The payload [postToWebhook(text, channel)] sends: optional fields are
    set only from truthy values, and the emoji only without an icon URL. *)
Definition webhookPayload (c : MattermostClient) (text : string)
    (channel : option string) : MattermostPayload :=
  let targetChannel :=
    match channel with
    | Some ch => Some ch
    | None => cl_channel c
    end in
  {| pl_text := text;
     pl_channel := if Js.truthy targetChannel then targetChannel else None;
     pl_username := if Js.truthy (cl_username c) then cl_username c else None;
     pl_icon_url := if Js.truthy (cl_iconUrl c) then cl_iconUrl c else None;
     pl_icon_emoji :=
       if Js.truthy (cl_iconUrl c) then None
       else if Js.truthy (cl_iconEmoji c) then cl_iconEmoji c else None |}.

(** ** The interrupter plugin ([interrupter.js]) *)

Module Interrupter.

Definition STOP_TEXT : string :=
  "🛑 Agent stopped. Tool calls will be blocked until you send a new message.".
Definition RESUMED_TEXT : string := "▶️ Agent resumed. Tool calls are now enabled.".
Definition NOT_STOPPED_TEXT : string := "Agent is not currently stopped.".
Definition BLOCK_REASON : string :=
  "Agent was stopped by user. Send a new message to resume.".

(** Handler of the [stop] command, on the module's [stoppedSessions]. *)
Definition stop (ctx : PluginCommandContext) (stopped : gset string)
  : string * gset string :=
  let sessionKey := Js.nullish (cc_senderId ctx) "default" in
  (STOP_TEXT, {[sessionKey]} ∪ stopped).

(** Handler of the [resume] command. *)
Definition resume (ctx : PluginCommandContext) (stopped : gset string)
  : string * gset string :=
  let sessionKey := Js.nullish (cc_senderId ctx) "default" in
  if bool_decide (sessionKey ∈ stopped)
  then (RESUMED_TEXT, stopped ∖ {[sessionKey]})
  else (NOT_STOPPED_TEXT, stopped).

(** Hook [message_received]. *)
Definition message_received (event : MessageEvent) (stopped : gset string)
  : gset string :=
  let sender := meta_senderId event in
  if Js.truthy sender && bool_decide (Js.nullish sender "" ∈ stopped) then
    if negb (Js.startsWith (ev_content event) "/stop")
       && negb (Js.startsWith (ev_content event) "/resume")
    then stopped ∖ {[Js.nullish sender ""]}
    else stopped
  else stopped.

(** Hook [before_tool_call]: the loop over [stoppedSessions] returns the
    block directive at the first member equal to the session key or to
    ["default"]. *)
Definition before_tool_call (ctx : ToolContext) (stopped : gset string)
  : option BlockDirective :=
  let sessionKey := Js.nullish (tc_sessionKey ctx) "default" in
  if existsb (fun s => String.eqb s sessionKey || String.eqb s "default")
             (elements stopped)
  then Some {| block := true; blockReason := BLOCK_REASON |}
  else None.

End Interrupter.

(** ** Predicates on handler bodies and registries *)

(** A text without a line separator: [split] leaves it whole. *)
Definition singleLine (text : string) : Prop :=
  Formatters.splitLines text = [text].


(** [m] leaves the component [f] of the world as it found it. *)
Definition preserves {A B} (f : World → A) (m : M B) : Prop :=
  ∀ w, f (snd (m w)) = f w.

(** [m] returns: no exception leaves it. *)
Definition returns {B} (m : M B) : Prop :=
  ∀ w, ∃ b, fst (m w) = Ret b.

(** Every stored link names a recipient. *)
Definition sendersSet (tbl : gmap string SenderEntry) : Prop :=
  ∀ k e, tbl !! k = Some e → senderId e ≠ "".

(** Every registered account carries a non-empty token. *)
Definition tokensSet (accounts : list (string * BotAccount)) : Prop :=
  Forall (fun kv => token kv.2 ≠ "") accounts.

(** ** Sample configurations and inputs *)

Definition emptyPluginConfig : PluginConfig :=
  mkPluginConfig None None None None None None None None None None None None None.

Definition emptyEnv : Env := mkEnv None None None.

(** The registry of the scenario [{default: tokenA, ops: tokenB}], the
    second account with a display name. *)
Definition scenarioConfig : FullConfig :=
  {| channelAccounts :=
       Some [("default", mkMattermostAccount (Some "tokenA") None None);
             ("ops", mkMattermostAccount (Some "tokenB") None (Some "Ops Bot"))];
     channelUrl := Some "https://chat.example.com";
     pluginConfig := emptyPluginConfig;
     env := emptyEnv |}.

(** The same registry with halt commands enabled. *)
Definition haltConfig : FullConfig :=
  {| channelAccounts := channelAccounts scenarioConfig;
     channelUrl := channelUrl scenarioConfig;
     pluginConfig :=
       mkPluginConfig None None None None None None None None None None None None
         (Some true);
     env := emptyEnv |}.

(** What [register haltConfig true] returns. *)
Definition haltPlugin : Plugin :=
  {| botAccounts :=
       [("default", {| token := "tokenA"; url := Some "https://chat.example.com" |});
        ("ops", {| token := "tokenB"; url := Some "https://chat.example.com" |});
        ("Ops Bot", {| token := "tokenB"; url := Some "https://chat.example.com" |})];
     defaultBaseUrl := Some "https://chat.example.com";
     webhookUrl := None;
     plConfig := pluginConfig haltConfig;
     excludedTools := ["message"];
     includeResults := true;
     truncateAt := 2000;
     maxLines := 20;
     postToConversation := true;
     enableHaltCommands := true;
     commandsRegistered := true |}.

(** Stand-ins for the formatting module. *)
Definition plainToolCall (tool : string) (_ : unit) : string := tool.

Definition plainToolResult (tool : string) (value : ToolResultValue)
    (_ _ _ : Z) : string :=
  match value with
  | ErrorResult e => tool +:+ " failed: " +:+ e
  | TextResult t => tool +:+ ": " +:+ t
  end.

(** A chat server that refuses every call. *)
Definition serverDown (_ : MattermostClient) (_ : list PostCall) (_ : PostCall)
  : Outcome := Failed "connection refused".

(** ["hello"] from [user1] to the bot account [ops] in conversation
    [conv1]. *)
Definition helloEvent : MessageEvent :=
  mkMessageEvent "user1" "hello" (Some "user1") (Some "conv1").

Definition haltEcho : MessageEvent :=
  mkMessageEvent "user1" "/halt" (Some "user1") (Some "conv1").

Definition opsContext : MessageContext :=
  mkMessageContext None (Some "ops") (Some "conv1").

Definition user1Command : PluginCommandContext :=
  mkCommandContext (Some "user1") "mattermost" None.

(** The world after [helloEvent] arrived at time 0. *)
Definition linkedWorld : World :=
  snd (message_received helloEvent opsContext 0 initialWorld).

(** The same after [user1] sent the halt command. *)
Definition haltedWorld : World :=
  snd (halt serverDown haltPlugin user1Command linkedWorld).

Definition execCall : @BeforeToolCallEvent unit := mkBeforeEvent "exec" ().

Definition mainSession : ToolContext :=
  mkToolContext (Some "ops") (Some "agent:ops:main") "exec".

(** The client [getClient] builds for [mainSession] under [haltPlugin]. *)
Definition opsClient : MattermostClient :=
  {| cl_webhookUrl := None;
     cl_baseUrl := Some "https://chat.example.com";
     cl_botToken := Some "tokenB";
     cl_channel := None;
     cl_username := Some "OpenClaw Agent";
     cl_iconEmoji := Some ":robot:";
     cl_iconUrl := None |}.

(** A message from another user to another account, in a session of its
    own. *)
Definition otherMessage : @HostEvent unit :=
  MessageReceived (mkMessageEvent "user2" "status?" (Some "user2") (Some "conv2"))
                  (mkMessageContext None (Some "default") (Some "conv2")) 60000.

Definition execResult : ToolResultPersistEvent :=
  mkToolResultEvent "exec" "call-1"
    (mkToolMessage "tool" ["done"] None None).

(** What [register scenarioConfig true] returns: halt commands are off. *)
Definition scenarioPlugin : Plugin :=
  {| botAccounts := botAccounts haltPlugin;
     defaultBaseUrl := Some "https://chat.example.com";
     webhookUrl := None;
     plConfig := emptyPluginConfig;
     excludedTools := ["message"];
     includeResults := true;
     truncateAt := 2000;
     maxLines := 20;
     postToConversation := true;
     enableHaltCommands := false;
     commandsRegistered := false |}.

(** The scenario registry with a bot token in the environment. *)
Definition envTokenConfig : FullConfig :=
  {| channelAccounts := channelAccounts scenarioConfig;
     channelUrl := channelUrl scenarioConfig;
     pluginConfig := emptyPluginConfig;
     env := mkEnv None (Some "tokenE") None |}.

(** A chat server that accepts every call. *)
Definition serverUp (_ : MattermostClient) (_ : list PostCall) (_ : PostCall)
  : Outcome := Posted (Some "post-1").

Definition messageCall : @BeforeToolCallEvent unit := mkBeforeEvent "message" ().

Definition messageResult : ToolResultPersistEvent :=
  mkToolResultEvent "message" "call-2"
    (mkToolMessage "tool" ["sent"] None None).


(** A message that carries no sender id. *)
Definition anonymousMessage : MessageEvent :=
  mkMessageEvent "someone" "hello" None (Some "conv3").

(** A command that carries no sender id. *)
Definition anonymousCommand : PluginCommandContext :=
  mkCommandContext None "mattermost" None.

(** The client [getClient] builds without a session key under
    [haltPlugin]. *)
Definition defaultClient : MattermostClient :=
  {| cl_webhookUrl := None;
     cl_baseUrl := Some "https://chat.example.com";
     cl_botToken := Some "tokenA";
     cl_channel := None;
     cl_username := Some "OpenClaw Agent";
     cl_iconEmoji := Some ":robot:";
     cl_iconUrl := None |}.

(** Three lines of text. *)
Definition threeLines : string :=
  "a" +:+ String Formatters.newline ("b" +:+ String Formatters.newline "c").

Definition sampleParams : list (string * JsValue) :=
  [("command", VString "ls -la"); ("timeout", VNumber 30);
   ("env", VObject [("HOME", VString "/root")])].

(** * Properties *)

(** ** Truthiness and strings *)

Lemma truthy_Some (s : string) : Js.truthy (Some s) = true ↔ s ≠ "".
Proof.
  unfold Js.truthy. rewrite negb_true_iff. apply String.eqb_neq.
Qed.

Lemma truthy_Some_intro (s : string) : s ≠ "" → Js.truthy (Some s) = true.
Proof. apply truthy_Some. Qed.

Lemma truthy_is_Some (o : option string) :
  Js.truthy o = true → ∃ s, o = Some s ∧ s ≠ "".
Proof.
  destruct o as [s|]; [|discriminate].
  intros H. exists s. split; [done|]. by apply truthy_Some.
Qed.

Lemma matchAfter_nonempty (pre s g : string) :
  Js.matchAfter pre s = Some g → g ≠ "".
Proof.
  unfold Js.matchAfter. destruct (Js.stripPrefix pre s) as [rest|]; [|done].
  destruct (String.eqb (Js.takeNonColon rest) "") eqn:E; [done|].
  intros [= <-]. by apply String.eqb_neq.
Qed.

(** The agent name taken from a session key is never empty, so the
    truthiness test of [getClient] on it never hides a match. *)
Lemma extractAgent_nonempty (sk : option string) (g : string) :
  extractAgentFromSessionKey sk = Some g → g ≠ "".
Proof.
  unfold extractAgentFromSessionKey. destruct sk as [s|]; [|done].
  destruct (String.eqb s ""); [done|].
  destruct (Js.matchAfter "agent:" s) eqn:E.
  - intros [= <-]. eauto using matchAfter_nonempty.
  - eauto using matchAfter_nonempty.
Qed.

(** ** The link table *)

Lemma recordSender_written (tbl : gmap string SenderEntry)
    (sk acc : option string) (R : string) (t : Z) (k : string) :
  k ∈ linkKeys sk acc →
  recordSender tbl sk acc R t !! k = Some {| senderId := R; timestamp := t |}.
Proof.
  unfold linkKeys, recordSender, normalizedKey.
  destruct (Js.truthy sk), (Js.truthy acc);
    try destruct (Js.startsWith (Js.nullish sk "") "agent:");
    cbn [negb app]; intros Hk;
    repeat (rewrite lookup_insert; case_decide; [done|]);
    rewrite ?elem_of_cons, ?elem_of_nil in Hk; intuition congruence.
Qed.

Lemma recordSender_other (tbl : gmap string SenderEntry)
    (sk acc : option string) (R : string) (t : Z) (k : string) :
  k ∉ linkKeys sk acc →
  recordSender tbl sk acc R t !! k = tbl !! k.
Proof.
  unfold linkKeys, recordSender, normalizedKey.
  destruct (Js.truthy sk), (Js.truthy acc);
    try destruct (Js.startsWith (Js.nullish sk "") "agent:");
    cbn [negb app]; intros Hk;
    rewrite ?not_elem_of_cons in Hk;
    repeat (rewrite lookup_insert_ne; [|intuition congruence]); done.
Qed.

Lemma recordSender_sendersSet (tbl : gmap string SenderEntry)
    (sk acc : option string) (R : string) (t : Z) :
  R ≠ "" → sendersSet tbl → sendersSet (recordSender tbl sk acc R t).
Proof.
  intros HR Htbl k e.
  destruct (decide (k ∈ linkKeys sk acc)) as [Hin|Hout].
  - rewrite recordSender_written by done. by intros [= <-].
  - rewrite recordSender_other by done. apply Htbl.
Qed.

(** On a table of links that all name a recipient, resolution never
    answers with an empty recipient. *)
Lemma resolveSender_nonempty (tbl : gmap string SenderEntry)
    (sk : option string) (accountName : string) (now : Z) (R : string) :
  sendersSet tbl → resolveSender tbl sk accountName now = Some R → R ≠ "".
Proof.
  intros Htbl. unfold resolveSender.
  destruct (tbl !! Js.nullish sk "") as [e|] eqn:He.
  - intros [= <-]. eauto.
  - destruct (tbl !! accountName) as [a|] eqn:Ha; [|done].
    case_match; [|done]. intros [= <-]. eauto.
Qed.

(** ** Frame and totality rules for handler bodies *)


Section Rules.
Context {A B C : Type} (f : World → A).

Lemma preserves_ret (b : B) : preserves f (ret b).
Proof using Type. by intros w. Qed.

Lemma preserves_mret (b : B) : preserves f (mret b : M B).
Proof using Type. by intros w. Qed.

Lemma preserves_throw (e : string) : preserves f (@throw B e).
Proof using Type. by intros w. Qed.

Lemma preserves_gets (g : World → B) : preserves f (gets g).
Proof using Type. by intros w. Qed.

Lemma preserves_modify (g : World → World) :
  (∀ w, f (g w) = f w) → preserves f (modify g).
Proof using Type. intros H w. apply H. Qed.

Lemma preserves_bind (m : M B) (k : B → M C) :
  preserves f m → (∀ b, preserves f (k b)) → preserves f (m ≫= k).
Proof using Type.
  intros Hm Hk w. unfold mbind, M_bind, bind.
  specialize (Hm w). destruct (m w) as [[b|e] w']; cbn in *.
  - by rewrite Hk.
  - done.
Qed.

Lemma preserves_tryCatch (m : M B) (h : string → M B) :
  preserves f m → (∀ e, preserves f (h e)) → preserves f (tryCatch m h).
Proof using Type.
  intros Hm Hh w. unfold tryCatch.
  specialize (Hm w). destruct (m w) as [[b|e] w']; cbn in *.
  - done.
  - by rewrite Hh.
Qed.

Lemma returns_ret (b : B) : returns (ret b).
Proof using Type. intros w. by exists b. Qed.

Lemma returns_mret (b : B) : returns (mret b : M B).
Proof using Type. intros w. by exists b. Qed.

Lemma returns_gets (g : World → B) : returns (gets g).
Proof using Type. intros w. by exists (g w). Qed.

Lemma returns_modify (g : World → World) : returns (modify g).
Proof using Type. intros w. by exists (). Qed.

Lemma returns_bind (m : M B) (k : B → M C) :
  returns m → (∀ b, returns (k b)) → returns (m ≫= k).
Proof using Type.
  intros Hm Hk w. unfold mbind, M_bind, bind.
  destruct (Hm w) as [b Hb]. destruct (m w) as [[b'|e] w']; cbn in *.
  - apply Hk.
  - done.
Qed.

(** A [try] whose [catch] block returns lets nothing out, whatever the
    body does. *)
Lemma returns_tryCatch (m : M B) (h : string → M B) :
  (∀ e, returns (h e)) → returns (tryCatch m h).
Proof using Type.
  intros Hh w. unfold tryCatch.
  destruct (m w) as [[b|e] w']; cbn.
  - by exists b.
  - apply Hh.
Qed.

End Rules.


(** Splits a handler body along its control flow and closes the leaves
    with the rules above. *)
Ltac handler_cases :=
  repeat first
    [ progress intros
    | apply preserves_bind | apply preserves_tryCatch
    | apply preserves_ret | apply preserves_mret | apply preserves_throw
    | apply preserves_gets
    | apply preserves_modify; intros; reflexivity
    | apply returns_tryCatch | apply returns_bind
    | apply returns_ret | apply returns_mret | apply returns_gets
    | apply returns_modify
    | case_match ].

(** ** What each handler touches *)

Section HandlerFrames.
Context {Params : Type}.
Variable formatToolCall : string → Params → string.
Variable formatToolResult : string → ToolResultValue → Z → Z → Z → string.
Variable net : MattermostClient → list PostCall → PostCall → Outcome.
Variable p : Plugin.

(** Posting only adds to the log of calls. *)
Lemma postToDm_preserves {A} (f : World → A) c u t :
  (∀ l w, f (with_postLog l w) = f w) → preserves f (postToDm net c u t).
Proof using Type.
  intros Hf. unfold postToDm, logCall. handler_cases.
  all: apply preserves_modify; intros; apply Hf.
Qed.

Lemma postToWebhook_preserves {A} (f : World → A) c t :
  (∀ l w, f (with_postLog l w) = f w) → preserves f (postToWebhook net c t).
Proof using Type.
  intros Hf. unfold postToWebhook, logCall. handler_cases.
  all: apply preserves_modify; intros; apply Hf.
Qed.

Lemma postDirectOrWebhook_preserves {A} (f : World → A) c s t :
  (∀ l w, f (with_postLog l w) = f w) →
  preserves f (postDirectOrWebhook net p c s t).
Proof using Type.
  intros Hf. unfold postDirectOrWebhook.
  case_match; auto using postToDm_preserves, postToWebhook_preserves.
Qed.

Lemma before_tool_call_sessionSenders event ctx now :
  preserves sessionSenders (before_tool_call formatToolCall net p event ctx now).
Proof using Type.
  unfold before_tool_call. handler_cases.
  all: by apply postDirectOrWebhook_preserves.
Qed.

Lemma before_tool_call_stoppedSessions event ctx now :
  preserves stoppedSessions (before_tool_call formatToolCall net p event ctx now).
Proof using Type.
  unfold before_tool_call. handler_cases.
  all: by apply postDirectOrWebhook_preserves.
Qed.

Lemma tool_result_persist_sessionSenders event now :
  preserves sessionSenders (tool_result_persist formatToolResult net p event now).
Proof using Type.
  unfold tool_result_persist, postResult. handler_cases.
  all: by apply postDirectOrWebhook_preserves.
Qed.

Lemma tool_result_persist_stoppedSessions event now :
  preserves stoppedSessions (tool_result_persist formatToolResult net p event now).
Proof using Type.
  unfold tool_result_persist, postResult. handler_cases.
  all: by apply postDirectOrWebhook_preserves.
Qed.

Lemma halt_sessionSenders ctx : preserves sessionSenders (halt net p ctx).
Proof using Type.
  unfold halt. handler_cases.
Qed.

Lemma unhalt_sessionSenders ctx : preserves sessionSenders (unhalt ctx).
Proof using Type. unfold unhalt. handler_cases. Qed.

(** [message_received] changes the link table by [recordSender] and by
    nothing else. *)
Lemma message_received_sessionSenders event ctx now w :
  sessionSenders (snd (message_received event ctx now w)) =
  if Js.truthy (meta_senderId event)
  then recordSender (sessionSenders w)
         (Js.or_else (meta_sessionKey event) (mc_conversationId ctx))
         (mc_accountId ctx) (Js.nullish (meta_senderId event) "") now
  else sessionSenders w.
Proof using Type.
  unfold message_received, mbind, M_bind, bind, gets, modify, ret.
  destruct (Js.truthy (meta_senderId event)); cbn;
    repeat case_match; simplify_eq; done.
Qed.

(** An event leaves alone every link it does not write. *)
Lemma step_other_key (w : World) (e : HostEvent) (k : string) :
  k ∉ writtenKeys e →
  sessionSenders (step formatToolCall formatToolResult net p w e) !! k
  = sessionSenders w !! k.
Proof using Type.
  destruct e as [event ctx now|event ctx now|event now|ctx|ctx]; cbn [step writtenKeys].
  - rewrite message_received_sessionSenders.
    destruct (Js.truthy (meta_senderId event)); [|done].
    apply recordSender_other.
  - by rewrite before_tool_call_sessionSenders.
  - by rewrite tool_result_persist_sessionSenders.
  - intros _. destruct (commandsRegistered p); [|done].
    by rewrite halt_sessionSenders.
  - intros _. destruct (commandsRegistered p); [|done].
    by rewrite unhalt_sessionSenders.
Qed.

Lemma run_other_key (events : list HostEvent) (w : World) (k : string) :
  Forall (fun e => k ∉ writtenKeys e) events →
  sessionSenders (run formatToolCall formatToolResult net p w events) !! k
  = sessionSenders w !! k.
Proof using Type.
  unfold run. intros H. revert w.
  induction H as [|e events He _ IH]; intros w; cbn [foldl]; [done|].
  rewrite IH. by apply step_other_key.
Qed.

(** Every world the host can drive the plugin into keeps that property
    of the link table. *)
Lemma step_sendersSet (w : World) (e : HostEvent) :
  sendersSet (sessionSenders w) →
  sendersSet (sessionSenders (step formatToolCall formatToolResult net p w e)).
Proof using Type.
  intros Hw.
  destruct e as [event ctx now|event ctx now|event now|ctx|ctx]; cbn [step].
  - rewrite message_received_sessionSenders.
    destruct (Js.truthy (meta_senderId event)) eqn:Hs; [|done].
    apply truthy_is_Some in Hs as (R & -> & HR).
    by apply recordSender_sendersSet.
  - by rewrite before_tool_call_sessionSenders.
  - by rewrite tool_result_persist_sessionSenders.
  - destruct (commandsRegistered p); [|done]. by rewrite halt_sessionSenders.
  - destruct (commandsRegistered p); [|done]. by rewrite unhalt_sessionSenders.
Qed.

Lemma run_sendersSet (events : list HostEvent) (w : World) :
  sendersSet (sessionSenders w) →
  sendersSet (sessionSenders (run formatToolCall formatToolResult net p w events)).
Proof using Type.
  unfold run. revert w.
  induction events as [|e events IH]; intros w Hw; cbn [foldl]; [done|].
  by apply IH, step_sendersSet.
Qed.

Lemma reachable_sendersSet (events : list HostEvent) :
  sendersSet
    (sessionSenders (run formatToolCall formatToolResult net p initialWorld events)).
Proof using Type.
  apply run_sendersSet. intros k e. cbn. by rewrite lookup_empty.
Qed.

End HandlerFrames.

(** ** Sender resolver *)

Section SenderResolver.
Context {Params : Type}.
Variable formatToolCall : string → Params → string.
Variable formatToolResult : string → ToolResultValue → Z → Z → Z → string.
Variable net : MattermostClient → list PostCall → PostCall → Outcome.
Variable p : Plugin.

(** C7.  A [message_received] that carries a recipient [R], a session
    key [S] and an account [A] stores the link [{R, now}] under [S],
    under the normalized form of [S] and under [A]: a lookup by any of
    the three finds that same entry. *)
Theorem C7_record_writes_three_keys
    (w : World) (event : MessageEvent) (ctx : MessageContext) (now : Z)
    (R S A : string) :
  meta_senderId event = Some R → R ≠ "" →
  Js.or_else (meta_sessionKey event) (mc_conversationId ctx) = Some S → S ≠ "" →
  mc_accountId ctx = Some A → A ≠ "" →
  let tbl := sessionSenders (snd (message_received event ctx now w)) in
  let link := {| senderId := R; timestamp := now |} in
  tbl !! S = Some link ∧ tbl !! normalizedKey S = Some link ∧ tbl !! A = Some link.
Proof using Type.
  intros HR HRne HS HSne HA HAne tbl link. subst tbl link.
  rewrite message_received_sessionSenders, HR, HS, HA.
  rewrite (truthy_Some_intro R HRne). cbn [Js.nullish].
  assert (Hk : ∀ k, k ∈ linkKeys (Some S) (Some A) →
    recordSender (sessionSenders w) (Some S) (Some A) R now !! k
    = Some {| senderId := R; timestamp := now |})
    by (intros k; apply recordSender_written).
  unfold linkKeys in Hk.
  rewrite (truthy_Some_intro S HSne), (truthy_Some_intro A HAne) in Hk.
  cbn [Js.nullish app] in Hk.
  repeat split; apply Hk; rewrite !elem_of_cons; auto.
Qed.

(** C2.  After a [message_received] that links recipient [R] to session
    [S], and after any further events none of which writes a link under
    the key [S], resolution for session [S] returns [R]: whatever the
    account name, whatever the time of the lookup, whatever markers [S]
    contains. *)
Theorem C2_exact_session_wins
    (w : World) (event : MessageEvent) (ctx : MessageContext) (t : Z)
    (R S : string) (events : list HostEvent) (accountName : string) (t' : Z) :
  meta_senderId event = Some R → R ≠ "" →
  Js.or_else (meta_sessionKey event) (mc_conversationId ctx) = Some S → S ≠ "" →
  Forall (fun e => S ∉ writtenKeys e) events →
  let w1 := step formatToolCall formatToolResult net p w (MessageReceived event ctx t) in
  let w2 := run formatToolCall formatToolResult net p w1 events in
  resolveSender (sessionSenders w2) (Some S) accountName t' = Some R.
Proof using Type.
  intros HR HRne HS HSne Hev w1 w2. subst w1 w2.
  unfold resolveSender. cbn [Js.nullish].
  rewrite run_other_key by done. cbn [step].
  rewrite message_received_sessionSenders, HR, HS.
  rewrite (truthy_Some_intro R HRne). cbn [Js.nullish].
  rewrite recordSender_written; [done|].
  unfold linkKeys. rewrite (truthy_Some_intro S HSne).
  cbn [Js.nullish]. apply elem_of_app. left. apply elem_of_cons. by left.
Qed.

(** C1, as the code has it.  After a [message_received] that links
    recipient [R] to account [A] at time [t], take a session key [S']
    that has no link of its own: none was stored under it before, and it
    is none of the keys this message writes (its session key, that key
    with the ["agent:"] prefix, [A], and ["agent:A:main"]).  Then
    resolution for [S'] on account [A] at time [t'] returns [R] exactly
    when [t' - t] is below 1800 seconds and [S'] contains neither
    [":subagent:"] nor [":cron:"]; otherwise it returns nothing. *)
Theorem C1_account_fallback
    (w : World) (event : MessageEvent) (ctx : MessageContext) (t : Z)
    (R A : string) (S' : option string) (t' : Z) :
  meta_senderId event = Some R → R ≠ "" →
  mc_accountId ctx = Some A → A ≠ "" →
  sessionSenders w !! Js.nullish S' "" = None →
  Js.nullish S' "" ∉
    linkKeys (Js.or_else (meta_sessionKey event) (mc_conversationId ctx)) (Some A) →
  let tbl := sessionSenders (snd (message_received event ctx t w)) in
  (resolveSender tbl S' A t' = Some R
     ↔ t' - t < 1800 * 1000 ∧ isSubagent S' = false)
  ∧ (¬ (t' - t < 1800 * 1000 ∧ isSubagent S' = false) →
     resolveSender tbl S' A t' = None).
Proof using Type.
  intros HR HRne HA HAne Hold Hkeys tbl. subst tbl.
  rewrite message_received_sessionSenders, HR, HA.
  rewrite (truthy_Some_intro R HRne). cbn [Js.nullish].
  unfold resolveSender.
  rewrite recordSender_other, Hold by done.
  rewrite recordSender_written.
  2:{ unfold linkKeys. rewrite (truthy_Some_intro A HAne).
      cbn [Js.nullish]. apply elem_of_app. right. apply elem_of_cons. by left. }
  cbn [senderId timestamp]. unfold isFresh, FRESH_MS.
  destruct (Z.ltb_spec (t' - t) (30 * 60 * 1000)) as [Hlt|Hge];
    destruct (isSubagent S') eqn:Hsub; cbn [andb negb].
  all: split; [split|]; try done; try (intros []; try done; lia);
    try (intros; split; [lia|done]).
Qed.

(** C9.  Resolution reads the link table and leaves it as it was: the
    two handlers that resolve a sender return the table unchanged, so a
    second resolution with the same session key, account name and time
    gives the same answer as the first. *)
Theorem C9_resolve_read_only
    (w : World) (event : BeforeToolCallEvent) (ctx : ToolContext)
    (result : ToolResultPersistEvent) (now : Z) :
  let w1 := snd (before_tool_call formatToolCall net p event ctx now w) in
  let w2 := snd (tool_result_persist formatToolResult net p result now w) in
  sessionSenders w1 = sessionSenders w
  ∧ sessionSenders w2 = sessionSenders w
  ∧ ∀ sessionKey accountName t,
      resolveSender (sessionSenders w1) sessionKey accountName t
      = resolveSender (sessionSenders w) sessionKey accountName t
      ∧ resolveSender (sessionSenders w2) sessionKey accountName t
        = resolveSender (sessionSenders w) sessionKey accountName t.
Proof using Type.
  intros w1 w2. subst w1 w2.
  split; [apply before_tool_call_sessionSenders|].
  split; [apply tool_result_persist_sessionSenders|].
  intros sessionKey accountName t.
  by rewrite before_tool_call_sessionSenders, tool_result_persist_sessionSenders.
Qed.

End SenderResolver.

(** ** Account registry *)


Lemma set_tokensSet accounts k a :
  tokensSet accounts → token a ≠ "" → tokensSet (JsMap.set accounts k a).
Proof.
  unfold tokensSet. intros H Ha.
  induction H as [|[k' v'] rest Hv Hrest IH]; cbn [JsMap.set].
  - by repeat constructor.
  - destruct (String.eqb k' k); constructor; done.
Qed.

Lemma addChannelAccounts_tokensSet dflt entries accounts :
  tokensSet accounts → tokensSet (addChannelAccounts dflt entries accounts).
Proof.
  revert accounts.
  induction entries as [|[name account] rest IH]; intros accounts H;
    cbn [addChannelAccounts]; [done|].
  apply IH.
  destruct (Js.truthy (acc_botToken account)) eqn:Htok; [|done].
  apply truthy_is_Some in Htok as (tok & -> & Hne). cbn [Js.nullish].
  destruct (Js.truthy (acc_name account)); repeat apply set_tokensSet; done.
Qed.

Lemma buildBotAccounts_tokensSet fc : tokensSet (buildBotAccounts fc).
Proof.
  unfold buildBotAccounts.
  set (envToken := Js.or_else _ _).
  assert (tokensSet
    match channelAccounts fc with
    | Some entries => addChannelAccounts (computeDefaultBaseUrl fc) entries []
    | None => []
    end) as Hm.
  { destruct (channelAccounts fc);
      [apply addChannelAccounts_tokensSet|]; constructor. }
  destruct (Js.truthy envToken) eqn:Htok; [|done].
  apply truthy_is_Some in Htok as (tok & -> & Hne).
  by apply set_tokensSet.
Qed.

Lemma get_elem_of {V} (m : list (string * V)) k v :
  JsMap.get m k = Some v → ∃ k', (k', v) ∈ m.
Proof.
  induction m as [|[k' v'] rest IH]; cbn [JsMap.get]; [done|].
  destruct (String.eqb k' k).
  - intros [= ->]. exists k'. apply elem_of_cons. by left.
  - intros H. destruct (IH H) as [k'' Hin]. exists k''.
    apply elem_of_cons. by right.
Qed.

(** [set] never changes which key comes first: the first value of a
    registry is the one stored under the first key ever inserted. *)
Lemma set_keeps_first_key {V} (m : list (string * V)) k v :
  fst <$> head (JsMap.set m k v) = Some (default k (fst <$> head m)).
Proof.
  destruct m as [|[k' v'] rest]; cbn; [done|].
  by destruct (String.eqb k' k).
Qed.

(** With a registry that is not empty, [getClient] always finds an
    account. *)
Lemma selectAccount_nonempty accounts agentId :
  accounts ≠ [] →
  ∃ a k, (selectAccount accounts agentId).1 = Some a ∧ (k, a) ∈ accounts.
Proof.
  intros Hne. unfold selectAccount.
  destruct (if Js.truthy agentId then JsMap.get accounts (Js.nullish agentId "")
            else None) as [a|] eqn:Hget.
  - destruct (Js.truthy agentId); [|done].
    apply get_elem_of in Hget as [k Hk]. by exists a, k.
  - destruct (JsMap.get accounts "default") as [d|] eqn:Hd.
    + apply get_elem_of in Hd as [k Hk]. by exists d, k.
    + destruct accounts as [|[k v] rest]; [done|].
      exists v, k. split; [done|]. apply elem_of_cons. by left.
Qed.

Lemma getClient_fst_snd p sk :
  getClient p sk = ((getClient p sk).1, (getClient p sk).2).
Proof. by destruct (getClient p sk). Qed.

Lemma getClient_accountName p sk :
  (getClient p sk).2
  = (selectAccount (botAccounts p) (extractAgentFromSessionKey sk)).2.
Proof.
  unfold getClient.
  destruct (selectAccount (botAccounts p) (extractAgentFromSessionKey sk)) as [a n].
  by case_match.
Qed.

(** A session of an agent that has an account of its own is served under
    that account's name: this is the key the account-level link is looked
    up under. *)
Lemma getClient_own_account p sk A a :
  extractAgentFromSessionKey sk = Some A →
  JsMap.get (botAccounts p) A = Some a →
  (getClient p sk).2 = A.
Proof.
  intros Hsk Hget. rewrite getClient_accountName, Hsk.
  unfold selectAccount.
  rewrite (truthy_Some_intro A (extractAgent_nonempty sk A Hsk)).
  cbn [Js.nullish]. by rewrite Hget.
Qed.

(** Once [register] has gone past its configuration check, [getClient]
    returns a client for every session key. *)
Lemma registered_client fc hasRegisterCommand p sk :
  register fc hasRegisterCommand = Some p → is_Some (getClient p sk).1.
Proof.
  unfold register.
  destruct (JsMap.isEmpty (buildBotAccounts fc) && negb (Js.truthy (computeWebhookUrl fc)))
    eqn:Hcheck; [done|].
  intros [= <-]. unfold getClient. cbn [botAccounts webhookUrl].
  destruct (selectAccount (buildBotAccounts fc) (extractAgentFromSessionKey sk))
    as [account name] eqn:Hsel.
  destruct (negb (Js.truthy (token <$> account))
            && negb (Js.truthy (computeWebhookUrl fc))) eqn:Hnull; [|by eexists].
  exfalso. apply andb_true_iff in Hnull as [Htok Hhook].
  rewrite Hhook, andb_true_r in Hcheck.
  assert (buildBotAccounts fc ≠ []) as Hne
    by (destruct (buildBotAccounts fc); [discriminate|done]).
  destruct (selectAccount_nonempty _ (extractAgentFromSessionKey sk) Hne)
    as (a & k & Ha & Hin).
  rewrite Hsel in Ha. cbn in Ha. subst account.
  pose proof (buildBotAccounts_tokensSet fc) as Htokens.
  unfold tokensSet in Htokens. rewrite Forall_forall in Htokens.
  specialize (Htokens _ Hin). cbn in Htokens, Htok.
  apply negb_true_iff in Htok. apply negb_false_iff, String.eqb_eq in Htok. done.
Qed.


(** C6.  For a hint that is not empty, [getClient] selects the account
    registered under the hint (a key or an alias) when there is one;
    otherwise the account under ["default"]; without one, the first
    account of the registry, which is the first inserted; and none when
    the registry is empty.  On the registry built from
    [{default: tokenA, ops: tokenB}] the hint ["ops"] (and its alias)
    gives the account with [tokenB] and ["unknown-agent"] the one with
    [tokenA]. *)
Theorem C6_account_resolution
    (accounts : list (string * BotAccount)) (hint : string) :
  hint ≠ "" →
  let chosen := (selectAccount accounts (Some hint)).1 in
  (∀ a, JsMap.get accounts hint = Some a → chosen = Some a)
  ∧ (JsMap.get accounts hint = None →
     ∀ d, JsMap.get accounts "default" = Some d → chosen = Some d)
  ∧ (JsMap.get accounts hint = None → JsMap.get accounts "default" = None →
     chosen = snd <$> head accounts)
  ∧ (accounts = [] → chosen = None)
  ∧ (let registry := buildBotAccounts scenarioConfig in
     token <$> (selectAccount registry (Some "ops")).1 = Some "tokenB"
     ∧ token <$> (selectAccount registry (Some "Ops Bot")).1 = Some "tokenB"
     ∧ token <$> (selectAccount registry (Some "unknown-agent")).1 = Some "tokenA").
Proof.
  intros Hne chosen. subst chosen. unfold selectAccount.
  rewrite (truthy_Some_intro hint Hne). cbn [Js.nullish].
  repeat split.
  - by intros a ->.
  - by intros -> d ->.
  - intros -> ->. by destruct accounts as [|[k v] rest].
  - by intros ->.
Qed.

(** C10.  Once [register] has gone past its configuration check (a bot
    account with a token or a webhook URL exists), [getClient] returns a
    client for every session key, so [before_tool_call] on a tool that is
    not excluded either returns the block directive or makes at least one
    post call before it returns [undefined]. *)
Theorem C10_registered_client_never_null
    {Params : Type} (formatToolCall : string → Params → string)
    (net : MattermostClient → list PostCall → PostCall → Outcome)
    (fc : FullConfig) (hasRegisterCommand : bool) (p : Plugin) :
  register fc hasRegisterCommand = Some p →
  (∀ sessionKey, ∃ client, (getClient p sessionKey).1 = Some client)
  ∧ (∀ w (event : BeforeToolCallEvent) ctx now,
       bt_toolName event ∉ excludedTools p →
       let '(r, w') := before_tool_call formatToolCall net p event ctx now w in
       r = Ret (Some {| block := true; blockReason := BLOCK_REASON |})
       ∨ (r = Ret None ∧ ∃ call rest, postLog w' = (postLog w ++ call :: rest)%list)).
Proof.
  intros Hreg. split; [intros sk; by apply (registered_client fc hasRegisterCommand)|].
  intros w event ctx now Hex.
  destruct (registered_client fc hasRegisterCommand p (tc_sessionKey ctx) Hreg)
    as [client Hclient].
  unfold before_tool_call, mbind, M_bind, bind, modify, gets, ret. cbn.
  rewrite bool_decide_eq_false_2 by done.
  rewrite (getClient_fst_snd p (tc_sessionKey ctx)), Hclient. cbn.
  set (sender := resolveSender _ _ _ _).
  destruct (enableHaltCommands p && Js.truthy sender && _); [by left|].
  unfold tryCatch, postDirectOrWebhook, postToDm, postToWebhook, logCall,
    mbind, M_bind, bind, modify, gets, ret, throw. cbn.
  repeat (case_match; simplify_eq; cbn in * );
    right; (split; [done|]); rewrite <- ?app_assoc; eauto.
Qed.

(** ** Halt gate *)

(** The halted set after [message_received]: the sender leaves it
    unless the content starts with ["/halt"] or ["/unhalt"]. *)
Lemma message_received_stoppedSessions event ctx now w (x : string) :
  x ∈ stoppedSessions (snd (message_received event ctx now w))
  ↔ x ∈ stoppedSessions w
    ∧ ¬ (Js.truthy (meta_senderId event)
         && negb (Js.startsWith (ev_content event) "/halt")
         && negb (Js.startsWith (ev_content event) "/unhalt") = true
         ∧ x = Js.nullish (meta_senderId event) "").
Proof.
  unfold message_received, mbind, M_bind, bind, modify, gets, ret.
  destruct (Js.truthy (meta_senderId event)); cbn;
    destruct (Js.startsWith (ev_content event) "/halt"),
             (Js.startsWith (ev_content event) "/unhalt"); cbn;
    try case_bool_decide; cbn;
    rewrite ?elem_of_difference, ?elem_of_singleton;
    intuition congruence.
Qed.

Section HaltGate.
Context {Params : Type}.
Variable formatToolCall : string → Params → string.
Variable net : MattermostClient → list PostCall → PostCall → Outcome.
Variable p : Plugin.

(** The [halt] command adds its sender to the halted set, also when the
    confirmation it posts afterwards fails. *)
Lemma halt_stoppedSessions ctx w :
  stoppedSessions (snd (halt net p ctx w))
  = {[Js.nullish (cc_senderId ctx) "default"]} ∪ stoppedSessions w.
Proof using Type.
  unfold halt, postToDm, logCall, mbind, M_bind, bind, modify, gets, ret, throw.
  cbn. repeat (case_match; simplify_eq; cbn in * ); done.
Qed.

(** C3.  With halt commands enabled, a [before_tool_call] that reaches
    sender resolution (the tool is not excluded; the plugin is
    registered, so a client exists) and resolves to a recipient [R] in
    the halted set returns [{block: true, blockReason}] with a reason
    that is not empty, and makes no post: only [lastSessionKey] has
    changed. *)
Theorem C3_halted_sender_is_blocked
    (fc : FullConfig) (hasRegisterCommand : bool)
    (w : World) (event : BeforeToolCallEvent) (ctx : ToolContext) (now : Z)
    (R : string) :
  register fc hasRegisterCommand = Some p →
  enableHaltCommands p = true →
  bt_toolName event ∉ excludedTools p →
  resolveSender (sessionSenders w) (tc_sessionKey ctx)
    (getClient p (tc_sessionKey ctx)).2 now = Some R →
  R ≠ "" →
  R ∈ stoppedSessions w →
  before_tool_call formatToolCall net p event ctx now w
  = (Ret (Some {| block := true; blockReason := BLOCK_REASON |}),
     with_lastSessionKey (tc_sessionKey ctx) w)
  ∧ BLOCK_REASON ≠ "".
Proof using Type.
  intros Hreg Hhalt Hex Hres HR Hin. split; [|done].
  destruct (registered_client fc hasRegisterCommand p (tc_sessionKey ctx) Hreg)
    as [client Hclient].
  unfold before_tool_call, mbind, M_bind, bind, modify, gets, ret. cbn.
  rewrite bool_decide_eq_false_2 by done.
  rewrite (getClient_fst_snd p (tc_sessionKey ctx)), Hclient. cbn.
  rewrite Hres, Hhalt, (truthy_Some_intro R HR). cbn.
  by rewrite bool_decide_eq_true_2.
Qed.

(** C4.  After [halt] from recipient [U], [U] is halted.  A following
    [message_received] from [U] whose content starts with neither
    ["/halt"] nor ["/unhalt"] clears the state; one whose content starts
    with either leaves [U] halted. *)
Theorem C4_halt_gate_transitions
    (w : World) (command : PluginCommandContext)
    (event : MessageEvent) (ctx : MessageContext) (now : Z) (U : string) :
  U ≠ "" →
  cc_senderId command = Some U →
  meta_senderId event = Some U →
  let w1 := snd (halt net p command w) in
  let w2 := snd (message_received event ctx now w1) in
  isHalted w1 U = true
  ∧ (Js.startsWith (ev_content event) "/halt" = false →
     Js.startsWith (ev_content event) "/unhalt" = false →
     isHalted w2 U = false)
  ∧ (Js.startsWith (ev_content event) "/halt" = true
     ∨ Js.startsWith (ev_content event) "/unhalt" = true →
     isHalted w2 U = true).
Proof using Type.
  intros HU Hcmd Hev w1 w2. subst w1 w2. unfold isHalted.
  assert (U ∈ stoppedSessions (snd (halt net p command w))) as Hhalted.
  { rewrite halt_stoppedSessions, Hcmd. cbn.
    by apply elem_of_union_l, elem_of_singleton. }
  split; [by apply bool_decide_eq_true_2|]. split.
  - intros H1 H2. apply bool_decide_eq_false_2.
    rewrite message_received_stoppedSessions, Hev, H1, H2.
    rewrite (truthy_Some_intro U HU). cbn. intros [_ Hkeep]. by apply Hkeep.
  - intros Hcommand. apply bool_decide_eq_true_2.
    rewrite message_received_stoppedSessions. split; [done|].
    intros [Hclear _]. rewrite !andb_true_iff, !negb_true_iff in Hclear.
    destruct Hclear as [[_ H1] H2], Hcommand; congruence.
Qed.

(** C8.  [unhalt] from a recipient who is not halted returns the
    "not halted" text, does not throw, and leaves the whole world, the
    halted set included, as it was. *)
Theorem C8_unhalt_when_not_halted
    (w : World) (command : PluginCommandContext) (U : string) :
  cc_senderId command = Some U →
  U ∉ stoppedSessions w →
  unhalt command w = (Ret NOT_HALTED_TEXT, w)
  ∧ NOT_HALTED_TEXT = "Agent is not currently halted.".
Proof using Type.
  intros Hcmd Hnot. split; [|done].
  unfold unhalt, mbind, M_bind, bind, gets, ret. cbn.
  rewrite Hcmd. cbn. by rewrite bool_decide_eq_false_2.
Qed.

End HaltGate.

(** ** Posting *)

Section Posting.
Context {Params : Type}.
Variable formatToolCall : string → Params → string.
Variable formatToolResult : string → ToolResultValue → Z → Z → Z → string.
Variable net : MattermostClient → list PostCall → PostCall → Outcome.
Variable p : Plugin.

Lemma before_tool_call_returns event ctx now :
  returns (before_tool_call formatToolCall net p event ctx now).
Proof using Type. unfold before_tool_call. handler_cases. Qed.

Lemma tool_result_persist_returns event now :
  returns (tool_result_persist formatToolResult net p event now).
Proof using Type. unfold tool_result_persist. handler_cases. Qed.


(** C5.  No exception leaves [before_tool_call] or
    [tool_result_persist], whatever the chat server answers.  When the
    handler's post goes to the direct channel of the resolved recipient
    and throws, the handler makes exactly one more call, a webhook post
    of the same message, and returns normally whether or not that one
    throws as well. *)
Theorem C5_posting_failures_contained
    (w : World) (event : BeforeToolCallEvent) (ctx : ToolContext)
    (result : ToolResultPersistEvent) (now : Z) :
  (∃ r, (before_tool_call formatToolCall net p event ctx now w).1 = Ret r)
  ∧ (tool_result_persist formatToolResult net p result now w).1 = Ret ()
  ∧ (∀ client accountName R e,
       bt_toolName event ∉ excludedTools p →
       getClient p (tc_sessionKey ctx) = (Some client, accountName) →
       resolveSender (sessionSenders w) (tc_sessionKey ctx) accountName now = Some R →
       R ≠ "" →
       enableHaltCommands p && bool_decide (R ∈ stoppedSessions w) = false →
       postToConversation p = true →
       hasRestApi client = true →
       let message := formatToolCall (bt_toolName event) (bt_params event) in
       net client (postLog w) (PostToDm R message) = Failed e →
       let '(r, w') := before_tool_call formatToolCall net p event ctx now w in
       r = Ret None
       ∧ postLog w' = (postLog w ++ [PostToDm R message; PostToWebhook message])%list)
  ∧ (∀ client accountName R e,
       includeResults p = true →
       tr_toolName result ∉ excludedTools p →
       getClient p (lastSessionKey w) = (Some client, accountName) →
       resolveSender (sessionSenders w) (lastSessionKey w) accountName now = Some R →
       R ≠ "" →
       postToConversation p = true →
       hasRestApi client = true →
       let message := resultMessage formatToolResult p result in
       net client (postLog w) (PostToDm R message) = Failed e →
       let '(r, w') := tool_result_persist formatToolResult net p result now w in
       r = Ret ()
       ∧ postLog w' = (postLog w ++ [PostToDm R message; PostToWebhook message])%list).
Proof using Type.
  split; [apply before_tool_call_returns|].
  split.
  { destruct (tool_result_persist_returns result now w) as [[] H]. exact H. }
  split.
  - intros client accountName R e Hex Hclient Hres HR Hhalt Hconv Hrest message Hfail.
    subst message.
    assert (String.eqb R "" = false) as HRe by by apply String.eqb_neq.
    unfold before_tool_call, mbind, M_bind, bind, modify, gets, ret. cbn.
    rewrite bool_decide_eq_false_2 by done.
    rewrite Hclient. cbn. rewrite Hres, (truthy_Some_intro R HR). cbn.
    rewrite andb_true_r, Hhalt.
    unfold tryCatch, postDirectOrWebhook, postToDm, postToWebhook, logCall,
      mbind, M_bind, bind, modify, gets, ret, throw. cbn.
    rewrite Hconv, Hrest, HRe. cbn.
    rewrite Hfail. cbn.
    repeat (case_match; simplify_eq; cbn in * );
      by rewrite <- app_assoc.
  - intros client accountName R e Hinc Hex Hclient Hres HR Hconv Hrest message Hfail.
    assert (String.eqb R "" = false) as HRe by by apply String.eqb_neq.
    unfold tool_result_persist.
    change (formatToolResult _ _ _ _ _) with (resultMessage formatToolResult p result).
    fold message. clearbody message.
    unfold postResult, mbind, M_bind, bind, modify, gets, ret.
    rewrite Hinc, bool_decide_eq_false_2 by done. cbn.
    unfold tryCatch, postDirectOrWebhook, postToDm, postToWebhook, logCall,
      mbind, M_bind, bind, modify, gets, ret, throw. cbn.
    rewrite Hclient. cbn. rewrite Hres, Hconv, Hrest. cbn. rewrite HRe. cbn.
    rewrite Hfail. cbn.
    rewrite Hclient. cbn.
    repeat (case_match; simplify_eq; cbn in * );
      by rewrite <- app_assoc.
Qed.

End Posting.

(** * Worked instances *)

(** Closes a decidable goal by evaluation. *)
Ltac by_evaluation :=
  match goal with
  | |- ?P => apply (bool_decide_eq_true_1 P); vm_compute; reflexivity
  end.

Example register_haltConfig : register haltConfig true = Some haltPlugin.
Proof. reflexivity. Qed.

Example getClient_mainSession :
  getClient haltPlugin (Some "agent:ops:main") = (Some opsClient, "ops").
Proof. reflexivity. Qed.

(** Without accounts and without a webhook URL [register] installs
    nothing. *)
Example register_unconfigured :
  register (mkFullConfig None None emptyPluginConfig emptyEnv) true = None.
Proof. reflexivity. Qed.

Lemma C7_record_writes_three_keys_witness :
  let tbl := sessionSenders linkedWorld in
  let link := {| senderId := "user1"; timestamp := 0 |} in
  tbl !! "conv1" = Some link
  ∧ tbl !! normalizedKey "conv1" = Some link
  ∧ tbl !! "ops" = Some link.
Proof.
  apply (C7_record_writes_three_keys initialWorld helloEvent opsContext 0
           "user1" "conv1" "ops");
    first [reflexivity | discriminate].
Defined.

Lemma C2_exact_session_wins_witness :
  let w1 := step plainToolCall plainToolResult serverDown haltPlugin initialWorld
              (MessageReceived helloEvent opsContext 0) in
  let w2 := run plainToolCall plainToolResult serverDown haltPlugin w1
              [BeforeToolCall execCall mainSession 1000; otherMessage;
               ToolResultPersist execResult 2000] in
  resolveSender (sessionSenders w2) (Some "conv1") "default" 86400000 = Some "user1".
Proof.
  apply (C2_exact_session_wins plainToolCall plainToolResult serverDown haltPlugin
           initialWorld helloEvent opsContext 0 "user1" "conv1");
    first [reflexivity | discriminate | by_evaluation].
Defined.

Lemma C1_account_fallback_witness :
  let tbl := sessionSenders linkedWorld in
  (resolveSender tbl (Some "agent:ops:task7") "ops" 1000 = Some "user1"
     ↔ 1000 - 0 < 1800 * 1000 ∧ isSubagent (Some "agent:ops:task7") = false)
  ∧ (¬ (1000 - 0 < 1800 * 1000 ∧ isSubagent (Some "agent:ops:task7") = false) →
     resolveSender tbl (Some "agent:ops:task7") "ops" 1000 = None).
Proof.
  apply (C1_account_fallback initialWorld helloEvent opsContext 0 "user1" "ops"
           (Some "agent:ops:task7") 1000);
    first [reflexivity | discriminate | by_evaluation].
Defined.

(** C1 as stated fails: the main session of agent [ops] differs from the
    session [conv1] the link was recorded for and shares its account, and
    two hours later it still resolves to [user1], because
    [message_received] stored the link under ["agent:ops:main"] as well. *)
Lemma C1_main_session_outlives_window :
  "agent:ops:main" ≠ "conv1"
  ∧ "agent:ops:main" ≠ normalizedKey "conv1"
  ∧ (getClient haltPlugin (Some "agent:ops:main")).2 = "ops"
  ∧ ¬ (resolveSender (sessionSenders linkedWorld) (Some "agent:ops:main") "ops"
         7200000 = Some "user1"
       ↔ 7200000 - 0 < 1800 * 1000
         ∧ isSubagent (Some "agent:ops:main") = false).
Proof.
  split; [discriminate|]. split; [discriminate|]. split; [reflexivity|].
  intros [Hfresh _].
  assert (resolveSender (sessionSenders linkedWorld) (Some "agent:ops:main") "ops"
            7200000 = Some "user1") as Hres by (vm_compute; reflexivity).
  apply Hfresh in Hres as [Hlt _]. lia.
Qed.

Lemma C6_account_resolution_witness :
  token <$> (selectAccount (botAccounts haltPlugin) (Some "ops")).1 = Some "tokenB".
Proof.
  destruct (C6_account_resolution (botAccounts haltPlugin) "ops") as [Hkey _];
    [discriminate|].
  rewrite (Hkey {| token := "tokenB"; url := Some "https://chat.example.com" |});
    reflexivity.
Defined.

Lemma C10_registered_client_never_null_witness :
  ∃ client, (getClient haltPlugin (Some "agent:ops:main")).1 = Some client.
Proof.
  destruct (C10_registered_client_never_null plainToolCall serverDown haltConfig
              true haltPlugin) as [Hclient _]; [reflexivity|].
  apply Hclient.
Defined.

Lemma C3_halted_sender_is_blocked_witness :
  before_tool_call plainToolCall serverDown haltPlugin execCall mainSession 1000
    haltedWorld
  = (Ret (Some {| block := true; blockReason := BLOCK_REASON |}),
     with_lastSessionKey (Some "agent:ops:main") haltedWorld)
  ∧ BLOCK_REASON ≠ "".
Proof.
  apply (C3_halted_sender_is_blocked plainToolCall serverDown haltPlugin
           haltConfig true haltedWorld execCall mainSession 1000 "user1");
    first [reflexivity | discriminate | by_evaluation].
Defined.

Lemma C4_halt_gate_transitions_witness :
  isHalted haltedWorld "user1" = true
  ∧ isHalted (snd (message_received helloEvent opsContext 1000 haltedWorld)) "user1"
    = false
  ∧ isHalted (snd (message_received haltEcho opsContext 1000 haltedWorld)) "user1"
    = true.
Proof.
  destruct (C4_halt_gate_transitions serverDown haltPlugin linkedWorld user1Command
              helloEvent opsContext 1000 "user1") as (Hhalted & Hclear & _);
    [discriminate | reflexivity | reflexivity |].
  destruct (C4_halt_gate_transitions serverDown haltPlugin linkedWorld user1Command
              haltEcho opsContext 1000 "user1") as (_ & _ & Hkeep);
    [discriminate | reflexivity | reflexivity |].
  split; [exact Hhalted|]. split.
  - apply Hclear; reflexivity.
  - apply Hkeep. left. reflexivity.
Defined.

Lemma C8_unhalt_when_not_halted_witness :
  unhalt user1Command linkedWorld = (Ret NOT_HALTED_TEXT, linkedWorld)
  ∧ NOT_HALTED_TEXT = "Agent is not currently halted.".
Proof.
  apply (C8_unhalt_when_not_halted linkedWorld user1Command "user1");
    first [reflexivity | by_evaluation].
Defined.

Lemma C5_posting_failures_contained_witness :
  (let '(r, w') := before_tool_call plainToolCall serverDown haltPlugin execCall
                     mainSession 1000 linkedWorld in
   r = Ret None
   ∧ postLog w' = [PostToDm "user1" "exec"; PostToWebhook "exec"])
  ∧ (let '(r, w') := tool_result_persist plainToolResult serverDown haltPlugin
                       execResult 2000
                       (with_lastSessionKey (Some "agent:ops:main") linkedWorld) in
     r = Ret ()
     ∧ postLog w' = [PostToDm "user1" "exec: done"; PostToWebhook "exec: done"]).
Proof.
  split.
  - destruct (C5_posting_failures_contained plainToolCall plainToolResult
                serverDown haltPlugin linkedWorld execCall mainSession execResult
                1000) as (_ & _ & Hcall & _).
    apply (Hcall opsClient "ops" "user1" "connection refused");
      first [reflexivity | discriminate | by_evaluation].
  - destruct (C5_posting_failures_contained plainToolCall plainToolResult
                serverDown haltPlugin
                (with_lastSessionKey (Some "agent:ops:main") linkedWorld)
                execCall mainSession execResult 2000) as (_ & _ & _ & Hresult).
    apply (Hresult opsClient "ops" "user1" "connection refused");
      first [reflexivity | discriminate | by_evaluation].
Defined.

(** * Further properties *)

(** ** Text truncation ([formatters.js]) *)

Lemma length_append (a b : string) :
  String.length (a +:+ b) = (String.length a + String.length b)%nat.
Proof. induction a as [|c a IH]; simpl; [done|]. by rewrite IH. Qed.

Lemma length_substring0 (n : nat) (s : string) :
  String.length (String.substring 0 n s) = Nat.min n (String.length s).
Proof.
  revert n. induction s as [|c s IH]; intros [|n]; simpl; try done.
  by rewrite IH.
Qed.

Lemma substring0_append (n : nat) (s t : string) :
  (n ≤ String.length s)%nat →
  String.substring 0 n (s +:+ t) = String.substring 0 n s.
Proof.
  revert n. induction s as [|c s IH]; intros [|n] Hn; simpl in *; try done.
  - by destruct t.
  - lia.
  - rewrite IH; [done|lia].
Qed.

Lemma substring0_all (n : nat) (s : string) :
  (String.length s ≤ n)%nat → String.substring 0 n s = s.
Proof.
  revert n. induction s as [|c s IH]; intros [|n] Hn; simpl in *; try done.
  - lia.
  - rewrite IH; [done|lia].
Qed.

Lemma sliceTo_nonneg (text : string) (stop : Z) :
  0 ≤ stop →
  Formatters.sliceTo text stop = String.substring 0 (Z.to_nat stop) text.
Proof.
  intros Hstop. unfold Formatters.sliceTo.
  destruct (Z.ltb_spec stop 0) as [|_]; [lia|].
  destruct (Z.le_ge_cases stop (Z.of_nat (String.length text))) as [Hle|Hge].
  - by rewrite Z.min_l.
  - rewrite Z.min_r, Nat2Z.id by done.
    rewrite !substring0_all; [done|lia..].
Qed.

Lemma truncateText_short (text : string) (maxLength : Z) :
  Z.of_nat (String.length text) ≤ maxLength →
  Formatters.truncateText text maxLength = text.
Proof.
  intros Hle. unfold Formatters.truncateText.
  by destruct (Z.leb_spec (Z.of_nat (String.length text)) maxLength); [|lia].
Qed.

Lemma truncateText_long (text : string) (maxLength : Z) :
  0 ≤ maxLength < Z.of_nat (String.length text) →
  Formatters.truncateText text maxLength
  = String.substring 0 (Z.to_nat maxLength) text +:+ "..."
  ∧ Z.of_nat (String.length (Formatters.truncateText text maxLength))
    = maxLength + 3.
Proof.
  intros [Hmax Hgt]. unfold Formatters.truncateText.
  destruct (Z.leb_spec (Z.of_nat (String.length text)) maxLength); [lia|].
  rewrite sliceTo_nonneg by done. split; [done|].
  rewrite length_append, length_substring0. simpl String.length. lia.
Qed.

(** X20.  For a limit that is not negative, [truncateText] returns a text
    within the limit unchanged, and cuts a longer one to its first
    [maxLength] characters followed by ["..."]: the result is then
    [maxLength + 3] characters long, three over the limit. *)
Theorem X20_truncateText_length (text : string) (maxLength : Z) :
  0 ≤ maxLength →
  let result := Formatters.truncateText text maxLength in
  let len := Z.of_nat (String.length text) in
  (len ≤ maxLength → result = text)
  ∧ (maxLength < len →
     result = String.substring 0 (Z.to_nat maxLength) text +:+ "..."
     ∧ Z.of_nat (String.length result) = maxLength + 3)
  ∧ Z.of_nat (String.length result) ≤ maxLength + 3.
Proof.
  intros Hmax result len. subst result len.
  split; [apply truncateText_short|].
  split; [intros Hgt; by apply truncateText_long|].
  destruct (Z.le_gt_cases (Z.of_nat (String.length text)) maxLength) as [Hle|Hgt].
  - rewrite truncateText_short by done. lia.
  - destruct (truncateText_long text maxLength) as [_ ->]; lia.
Qed.

(** X21.  For a limit that is not negative, truncating twice is
    truncating once: the three dots of a cut text are cut off and put
    back. *)
Theorem X21_truncateText_idempotent (text : string) (maxLength : Z) :
  0 ≤ maxLength →
  Formatters.truncateText (Formatters.truncateText text maxLength) maxLength
  = Formatters.truncateText text maxLength.
Proof.
  intros Hmax.
  destruct (Z.le_gt_cases (Z.of_nat (String.length text)) maxLength) as [Hle|Hgt].
  - rewrite (truncateText_short text) by done. by apply truncateText_short.
  - destruct (truncateText_long text maxLength) as [Heq Hlen]; [lia|].
    destruct (truncateText_long (Formatters.truncateText text maxLength) maxLength)
      as [Heq' _]; [lia|].
    rewrite Heq'. rewrite Heq at 1.
    rewrite substring0_append by (rewrite length_substring0; lia).
    rewrite Heq. f_equal.
    apply substring0_all. rewrite length_substring0. lia.
Qed.

(** ** Line truncation ([formatters.js]) *)

Lemma append_nil (b : string) : EmptyString +:+ b = b.
Proof. reflexivity. Qed.

Lemma append_cons (x : ascii) (a b : string) :
  String x a +:+ b = String x (a +:+ b).
Proof. reflexivity. Qed.

Lemma append_assoc (a b c : string) : (a +:+ b) +:+ c = a +:+ b +:+ c.
Proof.
  induction a as [|x a IH]; [done|]. rewrite !append_cons. by f_equal.
Qed.

Lemma splitLines_nonempty (text : string) : Formatters.splitLines text ≠ [].
Proof.
  destruct text as [|c rest]; simpl; [done|].
  destruct (Ascii.eqb c Formatters.newline); [done|].
  by destruct (Formatters.splitLines rest).
Qed.

Lemma singleLine_inv (c : ascii) (rest : string) :
  singleLine (String c rest) →
  Ascii.eqb c Formatters.newline = false ∧ singleLine rest.
Proof.
  unfold singleLine. simpl.
  destruct (Ascii.eqb c Formatters.newline); [done|].
  destruct (Formatters.splitLines rest) as [|line lines] eqn:E.
  - by destruct (splitLines_nonempty rest).
  - intros [= -> ->]. done.
Qed.

Lemma singleLine_cons (c : ascii) (rest : string) :
  Ascii.eqb c Formatters.newline = false → singleLine rest →
  singleLine (String c rest).
Proof. unfold singleLine. simpl. by intros -> ->. Qed.

Lemma singleLine_append (a b : string) :
  singleLine a → singleLine b → singleLine (a +:+ b).
Proof.
  induction a as [|c a IH]; [done|]. rewrite append_cons.
  intros [Hc Ha]%singleLine_inv Hb. apply singleLine_cons; auto.
Qed.

Lemma splitLines_append_newline (a b : string) :
  singleLine a →
  Formatters.splitLines (a +:+ String Formatters.newline b)
  = a :: Formatters.splitLines b.
Proof.
  induction a as [|c a IH].
  - intros _. by rewrite append_nil.
  - intros [Hc Ha]%singleLine_inv. rewrite append_cons. simpl.
    by rewrite Hc, IH.
Qed.

Lemma splitLines_singleLines (text : string) :
  Forall singleLine (Formatters.splitLines text).
Proof.
  induction text as [|c rest IH]; simpl.
  - by repeat constructor.
  - destruct (Ascii.eqb c Formatters.newline) eqn:Hc.
    + by constructor.
    + destruct (Formatters.splitLines rest) as [|line lines].
      * repeat constructor. by apply singleLine_cons.
      * inversion IH; subst. constructor; [|done]. by apply singleLine_cons.
Qed.

(** [split] undoes [join] on lines that hold no separator. *)
Lemma splitLines_joinLines (lines : list string) :
  lines ≠ [] → Forall singleLine lines →
  Formatters.splitLines (Formatters.joinLines lines) = lines.
Proof.
  induction lines as [|line rest IH]; [done|]. intros _ Hall.
  inversion Hall as [|? ? Hline Hrest]; subst.
  destruct rest as [|line2 rest]; [exact Hline|].
  change (Formatters.joinLines (line :: line2 :: rest))
    with (line +:+ String Formatters.newline (Formatters.joinLines (line2 :: rest))).
  rewrite splitLines_append_newline by done. f_equal. by apply IH.
Qed.

Lemma joinLines_snoc (lines : list string) (last : string) :
  lines ≠ [] →
  Formatters.joinLines (lines ++ [last])
  = Formatters.joinLines lines +:+ String Formatters.newline last.
Proof.
  induction lines as [|line rest IH]; [done|]. intros _.
  destruct rest as [|line2 rest]; [done|].
  change (Formatters.joinLines ((line :: line2 :: rest) ++ [last]))
    with (line +:+ String Formatters.newline
            (Formatters.joinLines ((line2 :: rest) ++ [last]))).
  rewrite IH by done.
  change (Formatters.joinLines (line :: line2 :: rest))
    with (line +:+ String Formatters.newline (Formatters.joinLines (line2 :: rest))).
  by rewrite append_assoc.
Qed.

Lemma string_of_uint_singleLine (d : Decimal.uint) :
  singleLine (NilEmpty.string_of_uint d).
Proof.
  induction d; simpl; [done|..]; by apply singleLine_cons.
Qed.

Lemma numberToString_singleLine (n : Z) : singleLine (Js.numberToString n).
Proof.
  unfold Js.numberToString, NilZero.string_of_int, NilZero.string_of_uint.
  destruct (Z.to_int n) as [d|d]; destruct d;
    try done; try apply singleLine_cons; try done;
    apply (string_of_uint_singleLine _).
Qed.

Lemma moreLines_singleLine (remaining : Z) :
  singleLine (Formatters.moreLines remaining).
Proof.
  unfold Formatters.moreLines.
  repeat apply singleLine_append; try done. apply numberToString_singleLine.
Qed.

(** X22.  [truncateLines] returns a text of at most [maxLines] lines
    unchanged.  For a longer text and [maxLines] of at least 1 it keeps
    the first [maxLines] lines and adds one line that counts the lines
    left out, so the result has [maxLines + 1] lines; with [maxLines] of 0
    the result still has two lines, an empty one and the count. *)
Theorem X22_truncateLines_lines (text : string) (maxLines : Z) :
  let lines := Formatters.splitLines text in
  let count := Z.of_nat (length lines) in
  (count ≤ maxLines → Formatters.truncateLines text maxLines = text)
  ∧ (1 ≤ maxLines < count →
     Formatters.splitLines (Formatters.truncateLines text maxLines)
     = (take (Z.to_nat maxLines) lines
        ++ [Formatters.moreLines (count - maxLines)])%list)
  ∧ (maxLines = 0 →
     Formatters.splitLines (Formatters.truncateLines text maxLines)
     = [EmptyString; Formatters.moreLines count]).
Proof.
  intros lines count. subst lines count. unfold Formatters.truncateLines.
  pose proof (splitLines_nonempty text) as Hne.
  pose proof (splitLines_singleLines text) as Hall.
  set (lines := Formatters.splitLines text) in *.
  split; [|split].
  - intros Hle. by destruct (Z.leb_spec (Z.of_nat (length lines)) maxLines); [|lia].
  - intros [Hmin Hlt].
    destruct (Z.leb_spec (Z.of_nat (length lines)) maxLines); [lia|].
    assert (Formatters.sliceListTo lines maxLines = take (Z.to_nat maxLines) lines)
      as ->.
    { unfold Formatters.sliceListTo.
      destruct (Z.ltb_spec maxLines 0); [lia|]. by rewrite Z.min_l by lia. }
    assert (take (Z.to_nat maxLines) lines ≠ []) as Htake.
    { destruct lines as [|line rest]; [done|].
      destruct (Z.to_nat maxLines) eqn:E; [lia|done]. }
    rewrite <- joinLines_snoc by done.
    apply splitLines_joinLines.
    + by destruct (take (Z.to_nat maxLines) lines).
    + apply Forall_app. split; [by apply Forall_take|].
      repeat constructor. apply moreLines_singleLine.
  - intros ->.
    destruct (Z.leb_spec (Z.of_nat (length lines)) 0).
    { destruct lines; [done|simpl in *; lia]. }
    unfold Formatters.sliceListTo. simpl.
    rewrite Z.sub_0_r.
    replace (Z.to_nat (Z.min 0 (Z.of_nat (length lines)))) with 0%nat by lia.
    rewrite take_0. simpl Formatters.joinLines. rewrite append_nil.
    change (Formatters.splitLines (String Formatters.newline ?s))
      with (EmptyString :: Formatters.splitLines s).
    f_equal. apply moreLines_singleLine.
Qed.

(** ** Parameter formatting ([formatters.js]) *)

(** X23.  A string parameter is shown in at most 105 characters, and the
    parameter summary of a call with two or more parameters in at most
    203. *)
Theorem X23_formatParams_bounded :
  (∀ s, (String.length (Formatters.formatValue (VString s)) ≤ 105)%nat)
  ∧ (∀ params : list (string * JsValue),
       (2 ≤ length params)%nat →
       (String.length (Formatters.formatParamsCompact params) ≤ 203)%nat).
Proof.
  split.
  - intros s. unfold Formatters.formatValue.
    rewrite !length_append. simpl String.length.
    destruct (Z.le_gt_cases (Z.of_nat (String.length s)) 100).
    + rewrite truncateText_short by done. lia.
    + destruct (truncateText_long s 100) as [_ Hlen]; lia.
  - intros params Hlen. unfold Formatters.formatParamsCompact.
    destruct params as [|[k1 v1] [|kv2 rest]]; simpl in Hlen; try lia.
    set (joined := Formatters.joinComma _).
    destruct (Z.le_gt_cases (Z.of_nat (String.length joined)) 200).
    + rewrite truncateText_short by done. lia.
    + destruct (truncateText_long joined 200) as [_ Hcut]; lia.
Qed.

(** ** Agent names and accounts ([index.ts]) *)

Lemma stripPrefix_append (pre s : string) :
  Js.stripPrefix pre (pre +:+ s) = Some s.
Proof.
  induction pre as [|c pre IH]; [done|].
  rewrite append_cons. simpl. by rewrite Ascii.eqb_refl.
Qed.

Lemma includes_colon_cons (c : ascii) (s : string) :
  Js.includes (String c s) ":" = false →
  Ascii.eqb c ":"%char = false ∧ Js.includes s ":" = false.
Proof.
  intros H.
  change (Js.includes (String c s) ":")
    with (if String.prefix ":" (String c s) then true else Js.includes s ":") in H.
  destruct (String.prefix ":" (String c s)) eqn:Hp; [done|]. split; [|done].
  apply Ascii.eqb_neq. intros ->. revert Hp.
  change (String.prefix ":" (String ":" s))
    with (if ascii_dec ":" ":" then String.prefix "" s else false).
  destruct (ascii_dec ":" ":"); [|done]. by destruct s.
Qed.

Lemma takeNonColon_append (a rest : string) :
  Js.includes a ":" = false →
  Js.takeNonColon (a +:+ ":" +:+ rest) = a.
Proof.
  induction a as [|c a IH]; [done|].
  intros [Hc Ha]%includes_colon_cons. rewrite append_cons. simpl.
  by rewrite Hc, IH.
Qed.

(** X1.  Both shapes of session key give back the agent they were built
    from: for an agent name that is not empty and holds no colon,
    ["agent:<name>:<rest>"] and ["session:agent:<name>:<rest>"] both
    yield [<name>]. *)
Theorem X1_extractAgent_roundtrip (agent rest : string) :
  agent ≠ "" →
  Js.includes agent ":" = false →
  extractAgentFromSessionKey (Some ("agent:" +:+ agent +:+ ":" +:+ rest))
  = Some agent
  ∧ extractAgentFromSessionKey
      (Some ("session:agent:" +:+ agent +:+ ":" +:+ rest)) = Some agent.
Proof.
  intros Hne Hcolon.
  assert (∀ pre, Js.matchAfter pre (pre +:+ agent +:+ ":" +:+ rest) = Some agent)
    as Hmatch.
  { intros pre. unfold Js.matchAfter.
    rewrite stripPrefix_append, takeNonColon_append by done.
    by apply String.eqb_neq in Hne as ->. }
  unfold extractAgentFromSessionKey. split.
  - rewrite Hmatch. by rewrite !append_cons.
  - rewrite Hmatch.
    by rewrite !(append_cons _ _ (agent +:+ ":" +:+ rest)), append_nil.
Qed.

(** X2.  When the agent of a session has no account of its own (or the
    key names no agent), [getClient] reports the account name ["default"]
    as soon as the registry holds any account, also when none is
    registered under that name and the first one is used; it reports
    ["none"] when the registry is empty. *)
Theorem X2_accountName_without_own_account (p : Plugin) (sk : option string) :
  (∀ A, extractAgentFromSessionKey sk = Some A →
        JsMap.get (botAccounts p) A = None) →
  (getClient p sk).2
  = (if JsMap.isEmpty (botAccounts p) then "none" else "default")
  ∧ (selectAccount (botAccounts p) (extractAgentFromSessionKey sk)).1
    = match JsMap.get (botAccounts p) "default" with
      | Some d => Some d
      | None => JsMap.firstValue (botAccounts p)
      end.
Proof.
  intros Hown. rewrite getClient_accountName. unfold selectAccount.
  destruct (extractAgentFromSessionKey sk) as [A|] eqn:HA.
  - rewrite (truthy_Some_intro A (extractAgent_nonempty sk A HA)).
    cbn [Js.nullish]. rewrite (Hown A eq_refl).
    destruct (JsMap.get (botAccounts p) "default") eqn:Hd.
    + destruct (botAccounts p); [discriminate|done].
    + by destruct (botAccounts p) as [|[k v] rest].
  - cbn [Js.truthy].
    destruct (JsMap.get (botAccounts p) "default") eqn:Hd.
    + destruct (botAccounts p); [discriminate|done].
    + by destruct (botAccounts p) as [|[k v] rest].
Qed.

(** ** More on the handlers ([index.ts]) *)

(** Unfolds the monad under a handler body. *)
Ltac unfold_handler :=
  unfold postResult, postDirectOrWebhook, postToDm, postToWebhook, logCall,
    tryCatch, mbind, M_bind, bind, modify, gets, ret, throw.

Lemma getClient_webhookUrl (p : Plugin) (sk : option string)
    (client : MattermostClient) (accountName : string) :
  getClient p sk = (Some client, accountName) →
  cl_webhookUrl client = webhookUrl p.
Proof.
  unfold getClient.
  destruct (selectAccount (botAccounts p) (extractAgentFromSessionKey sk)).
  case_match; intros [= <- _]; done.
Qed.


Lemma empty_not_linkKey (sk acc : option string) : "" ∉ linkKeys sk acc.
Proof.
  unfold linkKeys, normalizedKey. intros Hin.
  apply elem_of_app in Hin as [Hin|Hin].
  - destruct (Js.truthy sk) eqn:Hsk; [|by apply elem_of_nil in Hin].
    apply truthy_is_Some in Hsk as (s & -> & Hs). cbn [Js.nullish] in Hin.
    rewrite !elem_of_cons, elem_of_nil in Hin.
    destruct Hin as [H|[H|[]]]; [done|].
    destruct (Js.startsWith s "agent:"); [done|discriminate].
  - destruct (Js.truthy acc) eqn:Hacc; [|by apply elem_of_nil in Hin].
    apply truthy_is_Some in Hacc as (a & -> & Ha). cbn [Js.nullish] in Hin.
    rewrite !elem_of_cons, elem_of_nil in Hin.
    destruct Hin as [H|[H|[]]]; [done|discriminate].
Qed.

Section FurtherHandlers.
Context {Params : Type}.
Variable formatToolCall : string → Params → string.
Variable formatToolResult : string → ToolResultValue → Z → Z → Z → string.
Variable net : MattermostClient → list PostCall → PostCall → Outcome.
Variable p : Plugin.

(** X3.  A call of an excluded tool returns [undefined] right away: no
    post, no block directive even when the sender is halted, and nothing
    changed but [lastSessionKey]. *)
Theorem X3_excluded_tool_skipped
    (w : World) (event : BeforeToolCallEvent) (ctx : ToolContext) (now : Z) :
  bt_toolName event ∈ excludedTools p →
  before_tool_call formatToolCall net p event ctx now w
  = (Ret None, with_lastSessionKey (tc_sessionKey ctx) w).
Proof using Type.
  intros Hex. unfold before_tool_call. unfold_handler. cbn.
  by rewrite bool_decide_eq_true_2.
Qed.

(** X9.  A message without a sender id changes nothing: no link is
    stored and nobody is resumed. *)
Theorem X9_message_without_sender
    (w : World) (event : MessageEvent) (ctx : MessageContext) (now : Z) :
  Js.truthy (meta_senderId event) = false →
  message_received event ctx now w = (Ret (), w).
Proof using Type.
  intros Hs. unfold message_received. unfold_handler. by rewrite Hs.
Qed.

(** X13.  With results disabled, or for an excluded tool,
    [tool_result_persist] does nothing at all. *)
Theorem X13_result_skipped
    (w : World) (event : ToolResultPersistEvent) (now : Z) :
  includeResults p = false ∨ tr_toolName event ∈ excludedTools p →
  tool_result_persist formatToolResult net p event now w = (Ret (), w).
Proof using Type.
  intros Hskip. unfold tool_result_persist.
  destruct Hskip as [->|Hex]; [done|].
  rewrite bool_decide_eq_true_2 by done. by rewrite orb_true_r.
Qed.

(** Whatever the post log does not carry is out of reach of
    [tool_result_persist]. *)
Lemma tool_result_persist_frame {A} (f : World → A) event now :
  (∀ l w, f (with_postLog l w) = f w) →
  preserves f (tool_result_persist formatToolResult net p event now).
Proof using Type.
  intros Hf. unfold tool_result_persist, postResult. handler_cases.
  all: first [ by apply postDirectOrWebhook_preserves
             | by apply postToWebhook_preserves
             | apply preserves_modify; intros; apply Hf ].
Qed.

(** X14.  [tool_result_persist] only posts: the link table, the halted
    set, the pending calls and the remembered session key are as they
    were before. *)
Theorem X14_result_only_posts
    (w : World) (event : ToolResultPersistEvent) (now : Z) :
  let w' := (tool_result_persist formatToolResult net p event now w).2 in
  sessionSenders w' = sessionSenders w
  ∧ stoppedSessions w' = stoppedSessions w
  ∧ pendingCalls w' = pendingCalls w
  ∧ lastSessionKey w' = lastSessionKey w.
Proof using Type.
  intros w'. subst w'.
  split; [apply tool_result_persist_sessionSenders|].
  split; [apply tool_result_persist_stoppedSessions|].
  split; by apply tool_result_persist_frame.
Qed.

(** X4.  Halt commands are off unless the configuration turns them on:
    the plugin then registers no command, and [before_tool_call] returns
    [undefined] for every call, whoever is in the halted set. *)
Theorem X4_halt_disabled_never_blocks
    (fc : FullConfig) (hasRegisterCommand : bool) :
  register fc hasRegisterCommand = Some p →
  cfg_enableHaltCommands (pluginConfig fc) ≠ Some true →
  commandsRegistered p = false
  ∧ ∀ w (event : BeforeToolCallEvent) ctx now,
      (before_tool_call formatToolCall net p event ctx now w).1 = Ret None.
Proof using Type.
  intros Hreg Hcfg.
  assert (enableHaltCommands p = false ∧ commandsRegistered p = false) as [Hoff Hcmd].
  { unfold register in Hreg. case_match; [done|]. injection Hreg as <-.
    cbn. destruct (cfg_enableHaltCommands (pluginConfig fc)) as [[|]|]; done. }
  split; [done|]. intros w event ctx now.
  unfold before_tool_call. unfold_handler. cbn. rewrite Hoff. cbn.
  repeat (case_match; simplify_eq; cbn in * ); done.
Qed.


(** X6.  When the direct post succeeds there is no second call: the post
    log grows by that one call, and [pendingCalls] gets the entry
    ["<session>-<tool>-<now>"] with the post id the server returned. *)
Theorem X6_successful_direct_post
    (w : World) (event : BeforeToolCallEvent) (ctx : ToolContext) (now : Z)
    (client : MattermostClient) (accountName R : string) (id : option string) :
  bt_toolName event ∉ excludedTools p →
  getClient p (tc_sessionKey ctx) = (Some client, accountName) →
  resolveSender (sessionSenders w) (tc_sessionKey ctx) accountName now = Some R →
  R ≠ "" →
  enableHaltCommands p && bool_decide (R ∈ stoppedSessions w) = false →
  postToConversation p = true →
  hasRestApi client = true →
  let message := formatToolCall (bt_toolName event) (bt_params event) in
  net client (postLog w) (PostToDm R message) = Posted id →
  let '(r, w') := before_tool_call formatToolCall net p event ctx now w in
  let toolCallId :=
    Js.nullish (tc_sessionKey ctx) "default" +:+ "-" +:+ bt_toolName event
      +:+ "-" +:+ Js.numberToString now in
  r = Ret None
  ∧ postLog w' = (postLog w ++ [PostToDm R message])%list
  ∧ pendingCalls w'
    = <[toolCallId := {| postId := id; toolName := bt_toolName event;
                         startTime := now |}]> (pendingCalls w).
Proof using Type.
  intros Hex Hclient Hres HR Hhalt Hconv Hrest message Hok. subst message.
  assert (String.eqb R "" = false) as HRe by by apply String.eqb_neq.
  unfold before_tool_call. unfold_handler. cbn.
  rewrite bool_decide_eq_false_2 by done.
  rewrite Hclient. cbn. rewrite Hres. cbn. rewrite HRe. cbn.
  rewrite andb_true_r, Hhalt, Hconv, Hrest. cbn. by rewrite Hok.
Qed.

(** X7.  A plugin without a webhook URL cannot deliver a call it cannot
    attribute: with no recipient resolved, both the post and its fallback
    are webhook posts that throw before reaching the server, and the
    handler returns [undefined] with nothing recorded. *)
Theorem X7_unattributed_call_without_webhook
    (w : World) (event : BeforeToolCallEvent) (ctx : ToolContext) (now : Z)
    (client : MattermostClient) (accountName : string) :
  Js.truthy (webhookUrl p) = false →
  bt_toolName event ∉ excludedTools p →
  getClient p (tc_sessionKey ctx) = (Some client, accountName) →
  resolveSender (sessionSenders w) (tc_sessionKey ctx) accountName now = None →
  let message := formatToolCall (bt_toolName event) (bt_params event) in
  before_tool_call formatToolCall net p event ctx now w
  = (Ret None,
     with_postLog (postLog w ++ [PostToWebhook message; PostToWebhook message])
       (with_lastSessionKey (tc_sessionKey ctx) w)).
Proof using Type.
  intros Hhook Hex Hclient Hres message. subst message.
  pose proof (getClient_webhookUrl _ _ _ _ Hclient) as Hcl.
  unfold before_tool_call. unfold_handler. cbn.
  rewrite bool_decide_eq_false_2 by done.
  rewrite Hclient. cbn. rewrite Hres. cbn.
  rewrite !andb_false_r. cbn. rewrite Hcl, Hhook. cbn.
  unfold with_postLog. cbn. by rewrite <- app_assoc.
Qed.

(** X8.  One event never causes more than two post calls, and a second
    call is always the webhook post of the same message. *)
Theorem X8_at_most_two_posts
    (w : World) (event : BeforeToolCallEvent) (ctx : ToolContext)
    (result : ToolResultPersistEvent) (now : Z) :
  (∃ added,
     postLog (before_tool_call formatToolCall net p event ctx now w).2
     = (postLog w ++ added)%list
     ∧ (length added ≤ 2)%nat
     ∧ ∀ first second, added = [first; second] →
         second = PostToWebhook
                    (formatToolCall (bt_toolName event) (bt_params event)))
  ∧ (∃ added,
       postLog (tool_result_persist formatToolResult net p result now w).2
       = (postLog w ++ added)%list
       ∧ (length added ≤ 2)%nat
       ∧ ∀ first second, added = [first; second] →
           second = PostToWebhook (resultMessage formatToolResult p result)).
Proof using Type.
  split.
  - unfold before_tool_call. unfold_handler. cbn.
    repeat (case_match; simplify_eq; cbn in * );
      eexists;
      (split; [first [ symmetry; apply app_nil_r
                     | rewrite <- ?app_assoc; reflexivity ]|]);
      (split; [simpl; lia|]); intros first second [= <- <-]; done.
  - unfold tool_result_persist.
    change (formatToolResult _ _ _ _ _) with (resultMessage formatToolResult p result).
    generalize (resultMessage formatToolResult p result). intros message.
    unfold_handler. cbn.
    destruct (getClient p (lastSessionKey w)) as [[client|] accountName] eqn:Hc;
      cbn;
      repeat (case_match; simplify_eq; cbn in * );
      eexists;
      (split; [first [ symmetry; apply app_nil_r
                     | rewrite <- ?app_assoc; reflexivity ]|]);
      (split; [simpl; lia|]); intros first second [= <- <-]; done.
Qed.

Lemma unhalt_stoppedSessions ctx w (x : string) :
  x ∈ stoppedSessions (unhalt ctx w).2
  ↔ x ∈ stoppedSessions w ∧ x ≠ Js.nullish (cc_senderId ctx) "default".
Proof using Type.
  clear formatToolCall formatToolResult net p.
  unfold unhalt. unfold_handler. cbn. case_bool_decide; cbn.
  - rewrite elem_of_difference, elem_of_singleton. done.
  - split; [|by intros [? _]]. intros Hx. split; [done|]. by intros ->.
Qed.

(** X10.  The halt gate is per recipient: [halt] from one sender, and
    any message from that sender, leave the state of every other
    recipient as it was. *)
Theorem X10_halt_gate_per_recipient
    (w : World) (command : PluginCommandContext)
    (event : MessageEvent) (ctx : MessageContext) (now : Z) (V : string) :
  V ≠ Js.nullish (cc_senderId command) "default" →
  V ≠ Js.nullish (meta_senderId event) "" →
  isHalted (halt net p command w).2 V = isHalted w V
  ∧ isHalted (message_received event ctx now w).2 V = isHalted w V.
Proof using Type.
  clear formatToolCall formatToolResult.
  intros Hcmd Hev. unfold isHalted. split; apply bool_decide_ext.
  - rewrite halt_stoppedSessions, elem_of_union, elem_of_singleton. tauto.
  - rewrite message_received_stoppedSessions. tauto.
Qed.

(** X11.  [unhalt] right after [halt] from the same sender answers that
    the agent is resumed, and leaves that sender not halted and everybody
    else as before the [halt]. *)
Theorem X11_halt_then_unhalt
    (w : World) (command : PluginCommandContext) :
  let U := Js.nullish (cc_senderId command) "default" in
  let w1 := (halt net p command w).2 in
  (unhalt command w1).1 = Ret RESUMED_TEXT
  ∧ ∀ x, x ∈ stoppedSessions (unhalt command w1).2
         ↔ x ∈ stoppedSessions w ∧ x ≠ U.
Proof using Type.
  clear formatToolCall formatToolResult.
  intros U w1. subst U w1. split.
  - unfold unhalt. unfold_handler. cbn.
    rewrite bool_decide_eq_true_2; [done|].
    rewrite halt_stoppedSessions. by apply elem_of_union_l, elem_of_singleton.
  - intros x. rewrite unhalt_stoppedSessions, halt_stoppedSessions.
    rewrite elem_of_union, elem_of_singleton. tauto.
Qed.

(** X12.  Only the [halt] command halts anybody: every other event
    leaves the halted set as it was or smaller. *)
Theorem X12_only_halt_grows_halted_set (w : World) (e : HostEvent) :
  (∀ ctx, e ≠ HaltCommand ctx) →
  stoppedSessions (step formatToolCall formatToolResult net p w e)
  ⊆ stoppedSessions w.
Proof using Type.
  intros Hnot x.
  destruct e as [event ctx now|event ctx now|event now|ctx|ctx]; cbn [step].
  - rewrite message_received_stoppedSessions. tauto.
  - by rewrite before_tool_call_stoppedSessions.
  - by rewrite tool_result_persist_stoppedSessions.
  - by destruct (Hnot ctx).
  - destruct (commandsRegistered p); [|done].
    rewrite unhalt_stoppedSessions. tauto.
Qed.

(** X18.  In every world the host can drive the plugin into from its
    start, no link is stored under the empty key and every link names a
    recipient that is not empty. *)
Theorem X18_reachable_links_wellformed
    (events : list HostEvent) (k : string) (e : SenderEntry) :
  sessionSenders (run formatToolCall formatToolResult net p initialWorld events)
    !! k = Some e →
  k ≠ "" ∧ senderId e ≠ "".
Proof using Type.
  intros Hk. split.
  - intros ->. rewrite run_other_key in Hk; [done|].
    apply Forall_forall. intros ev _. unfold writtenKeys.
    destruct ev; try apply not_elem_of_nil.
    destruct (Js.truthy _); [apply empty_not_linkKey|apply not_elem_of_nil].
  - by eapply reachable_sendersSet.
Qed.

(** X28.  What [before_tool_call] leaves behind besides posts: the
    remembered session key is the key of this call, for an excluded tool
    too; the halted set is as it was; and [pendingCalls] differs at most
    at the key ["<session>-<tool>-<now>"] of this call. *)
Theorem X28_before_tool_call_frame
    (w : World) (event : BeforeToolCallEvent) (ctx : ToolContext) (now : Z) :
  let w' := (before_tool_call formatToolCall net p event ctx now w).2 in
  let toolCallId :=
    Js.nullish (tc_sessionKey ctx) "default" +:+ "-" +:+ bt_toolName event
      +:+ "-" +:+ Js.numberToString now in
  lastSessionKey w' = tc_sessionKey ctx
  ∧ stoppedSessions w' = stoppedSessions w
  ∧ ∀ k, k ≠ toolCallId → pendingCalls w' !! k = pendingCalls w !! k.
Proof using Type.
  intros w' toolCallId. subst w' toolCallId.
  split; [|split; [apply before_tool_call_stoppedSessions|]].
  - unfold before_tool_call. unfold_handler. cbn.
    repeat (case_match; simplify_eq; cbn in * ); done.
  - intros k Hk. unfold before_tool_call. unfold_handler. cbn.
    repeat (case_match; simplify_eq; cbn in * );
      rewrite ?lookup_insert_ne by done; done.
Qed.

(** X29.  The [halt] command is not guarded like the hooks: when the
    confirmation it posts to the sender fails, the handler throws that
    error, after the sender has been halted. *)
Theorem X29_halt_throws_after_halting
    (w : World) (command : PluginCommandContext) (U : string)
    (client : MattermostClient) (e : string) :
  cc_senderId command = Some U →
  U ≠ "" →
  (getClient p None).1 = Some client →
  hasRestApi client = true →
  net client (postLog w) (PostToDm U HALT_TEXT) = Failed e →
  let '(r, w') := halt net p command w in
  r = Throw e
  ∧ isHalted w' U = true
  ∧ postLog w' = (postLog w ++ [PostToDm U HALT_TEXT])%list.
Proof using Type.
  clear formatToolCall formatToolResult.
  intros Hcmd HU Hclient Hrest Hfail.
  unfold halt. rewrite Hclient, Hrest, Hcmd, (truthy_Some_intro U HU).
  unfold_handler. cbn [Js.nullish andb].
  rewrite Hrest. cbn. rewrite Hfail. cbn.
  split; [done|]. split; [|done].
  unfold isHalted. cbn. apply bool_decide_eq_true_2.
  by apply elem_of_union_l, elem_of_singleton.
Qed.

(** X30.  The keys a message links.  A message with recipient, session
    key [S] and account [A] stores its link under ["agent:<A>:main"] too,
    the key of the account's main session, and leaves every key other
    than [S], the normalized [S], [A] and ["agent:<A>:main"] as it was. *)
Theorem X30_message_link_keys
    (w : World) (event : MessageEvent) (ctx : MessageContext) (now : Z)
    (R S A k : string) :
  meta_senderId event = Some R → R ≠ "" →
  Js.or_else (meta_sessionKey event) (mc_conversationId ctx) = Some S → S ≠ "" →
  mc_accountId ctx = Some A → A ≠ "" →
  let tbl := sessionSenders (message_received event ctx now w).2 in
  tbl !! ("agent:" +:+ A +:+ ":main") = Some {| senderId := R; timestamp := now |}
  ∧ (k ≠ S → k ≠ normalizedKey S → k ≠ A → k ≠ "agent:" +:+ A +:+ ":main" →
     tbl !! k = sessionSenders w !! k).
Proof using Type.
  clear formatToolCall formatToolResult net p.
  intros HR HRne HS HSne HA HAne tbl. subst tbl.
  rewrite message_received_sessionSenders, HR, HS, HA.
  rewrite (truthy_Some_intro R HRne). cbn [Js.nullish].
  assert (linkKeys (Some S) (Some A)
          = [S; normalizedKey S; A; "agent:" +:+ A +:+ ":main"]) as Hkeys.
  { unfold linkKeys.
    by rewrite (truthy_Some_intro S HSne), (truthy_Some_intro A HAne). }
  split.
  - apply recordSender_written. rewrite Hkeys, !elem_of_cons. auto.
  - intros H1 H2 H3 H4. apply recordSender_other.
    rewrite Hkeys, !elem_of_cons, elem_of_nil. intuition congruence.
Qed.

End FurtherHandlers.

(** ** More on the registry ([index.ts]) *)

Lemma get_set_eq {V} (m : list (string * V)) k v :
  JsMap.get (JsMap.set m k v) k = Some v.
Proof.
  induction m as [|[k' v'] rest IH]; simpl.
  - by rewrite String.eqb_refl.
  - destruct (String.eqb k' k) eqn:E; simpl; by rewrite E.
Qed.

Lemma set_nonempty {V} (m : list (string * V)) k v : JsMap.set m k v ≠ [].
Proof. destruct m as [|[k' v'] rest]; simpl; [done|]. by case_match. Qed.

Lemma addChannelAccounts_nil dflt entries accounts :
  addChannelAccounts dflt entries accounts = []
  ↔ accounts = []
    ∧ Forall (fun kv => Js.truthy (acc_botToken kv.2) = false) entries.
Proof.
  revert accounts.
  induction entries as [|[name account] rest IH]; intros accounts;
    cbn [addChannelAccounts].
  - split; [by intros ->|by intros [-> _]].
  - rewrite IH. destruct (Js.truthy (acc_botToken account)) eqn:Htok.
    + split.
      * intros [Hnil _]. exfalso. revert Hnil.
        destruct (Js.truthy (acc_name account)); apply set_nonempty.
      * intros [_ Hall]. inversion Hall; subst. cbn in *. congruence.
    + split.
      * intros [-> Hall]. split; [done|]. by constructor.
      * intros [-> Hall]. inversion Hall; subst. done.
Qed.

(** X15.  [register] stores no account without a token: in the registry
    of a registered plugin every account, under a key or under an alias,
    has a token that is not empty. *)
Theorem X15_registered_accounts_have_tokens
    (fc : FullConfig) (hasRegisterCommand : bool) (p : Plugin) :
  register fc hasRegisterCommand = Some p →
  ∀ k a, (k, a) ∈ botAccounts p → token a ≠ "".
Proof.
  unfold register. case_match; [done|]. intros [= <-] k a Hin. cbn in Hin.
  pose proof (buildBotAccounts_tokensSet fc) as Hall.
  unfold tokensSet in Hall. rewrite Forall_forall in Hall.
  apply (Hall (k, a) Hin).
Qed.

(** X16.  A bot token from the plugin configuration, or else from the
    environment, always ends up as the account ["default"], replacing
    whatever the channel configuration registered under that key or
    alias. *)
Theorem X16_config_token_is_default (fc : FullConfig) (tok : string) :
  Js.or_else (cfg_botToken (pluginConfig fc)) (MATTERMOST_BOT_TOKEN (env fc))
    = Some tok →
  tok ≠ "" →
  JsMap.get (buildBotAccounts fc) "default"
  = Some {| token := tok; url := computeDefaultBaseUrl fc |}.
Proof.
  intros Htok Hne. unfold buildBotAccounts. rewrite Htok.
  rewrite (truthy_Some_intro tok Hne). cbn [Js.nullish]. apply get_set_eq.
Qed.

(** X17.  [register] gives up exactly when nothing is configured: no
    webhook URL, no bot token in the plugin configuration or the
    environment, and no channel account with a bot token. *)
Theorem X17_register_aborts_iff_unconfigured
    (fc : FullConfig) (hasRegisterCommand : bool) :
  register fc hasRegisterCommand = None
  ↔ Js.truthy (computeWebhookUrl fc) = false
    ∧ Js.truthy (Js.or_else (cfg_botToken (pluginConfig fc))
                   (MATTERMOST_BOT_TOKEN (env fc))) = false
    ∧ ∀ entries, channelAccounts fc = Some entries →
        Forall (fun kv => Js.truthy (acc_botToken kv.2) = false) entries.
Proof.
  unfold register.
  assert (JsMap.isEmpty (buildBotAccounts fc) = true
          ↔ Js.truthy (Js.or_else (cfg_botToken (pluginConfig fc))
                         (MATTERMOST_BOT_TOKEN (env fc))) = false
            ∧ ∀ entries, channelAccounts fc = Some entries →
                Forall (fun kv => Js.truthy (acc_botToken kv.2) = false) entries)
    as Hempty.
  { unfold buildBotAccounts.
    destruct (Js.truthy (Js.or_else _ _)) eqn:Htok.
    - split; [|by intros [? _]]. intros Hnil. exfalso. revert Hnil.
      generalize (set_nonempty
        match channelAccounts fc with
        | Some entries => addChannelAccounts (computeDefaultBaseUrl fc) entries []
        | None => []
        end "default"
        {| token := Js.nullish (Js.or_else (cfg_botToken (pluginConfig fc))
                                  (MATTERMOST_BOT_TOKEN (env fc))) "";
           url := computeDefaultBaseUrl fc |}).
      by destruct (JsMap.set _ _ _).
    - destruct (channelAccounts fc) as [entries|].
      + pose proof (addChannelAccounts_nil (computeDefaultBaseUrl fc) entries [])
          as Hnil.
        destruct (addChannelAccounts (computeDefaultBaseUrl fc) entries []);
          cbn [JsMap.isEmpty].
        * split; [|done]. intros _. split; [done|].
          intros ? [= <-]. by apply Hnil.
        * split; [done|]. intros [_ Hall].
          pose proof (proj2 Hnil (conj eq_refl (Hall entries eq_refl))). done.
      + cbn [JsMap.isEmpty]. split; [|done]. by intros _. }
  destruct (JsMap.isEmpty (buildBotAccounts fc)) eqn:Hacc;
    destruct (Js.truthy (computeWebhookUrl fc)) eqn:Hhook; cbn [andb negb].
  - split; [done|]. by intros [? _].
  - split; [|done]. intros _. split; [done|]. by apply Hempty.
  - split; [done|]. by intros [? _].
  - split; [done|]. intros [_ H]. apply Hempty in H. congruence.
Qed.

(** ** The webhook payload ([mattermost.ts]) *)

(** X19.  What a webhook post of the plugin carries.  The payload never
    holds both an icon URL and an icon emoji.  For a client built by
    [getClient] and no channel override: a configured icon URL is sent
    and the emoji dropped; without an icon URL and without a configured
    emoji the emoji [":robot:"] is sent; without a configured user name
    the name ["OpenClaw Agent"] is sent. *)
Theorem X19_webhook_payload
    (p : Plugin) (sk : option string) (c : MattermostClient)
    (accountName text : string) :
  getClient p sk = (Some c, accountName) →
  let payload := webhookPayload c text None in
  let cfg := plConfig p in
  pl_text payload = text
  ∧ (pl_icon_url payload = None ∨ pl_icon_emoji payload = None)
  ∧ (Js.truthy (cfg_iconUrl cfg) = true →
     pl_icon_url payload = cfg_iconUrl cfg ∧ pl_icon_emoji payload = None)
  ∧ (Js.truthy (cfg_iconUrl cfg) = false → cfg_iconEmoji cfg = None →
     pl_icon_url payload = None ∧ pl_icon_emoji payload = Some ":robot:")
  ∧ (cfg_username cfg = None → pl_username payload = Some "OpenClaw Agent").
Proof.
  intros Hc payload cfg. subst payload cfg.
  assert (cl_iconUrl c = cfg_iconUrl (plConfig p)
          ∧ cl_iconEmoji c = Some (Js.nullish (cfg_iconEmoji (plConfig p)) ":robot:")
          ∧ cl_username c
            = Some (Js.nullish (cfg_username (plConfig p)) "OpenClaw Agent"))
    as (Hurl & Hemoji & Hname).
  { revert Hc. unfold getClient.
    destruct (selectAccount (botAccounts p) (extractAgentFromSessionKey sk)).
    case_match; intros [= <- _]; done. }
  unfold webhookPayload. cbn. rewrite Hurl, Hemoji, Hname.
  split; [done|]. split.
  { destruct (Js.truthy (cfg_iconUrl (plConfig p))); [by right|by left]. }
  split; [by intros ->|]. split.
  - by intros -> ->.
  - by intros ->.
Qed.

(** ** The interrupter plugin ([interrupter.js]) *)

Lemma interrupter_blocks_iff (ctx : ToolContext) (stopped : gset string) :
  Interrupter.before_tool_call ctx stopped
  = Some {| block := true; blockReason := Interrupter.BLOCK_REASON |}
  ↔ Js.nullish (tc_sessionKey ctx) "default" ∈ stopped ∨ "default" ∈ stopped.
Proof.
  unfold Interrupter.before_tool_call.
  destruct (existsb _ (elements stopped)) eqn:E.
  - split; [intros _|done].
    apply existsb_exists in E as (s & Hin & Hs).
    apply list_elem_of_In, elem_of_elements in Hin.
    apply orb_true_iff in Hs as [Hs|Hs]; apply String.eqb_eq in Hs; subst s; auto.
  - split; [done|]. intros Hin. exfalso.
    assert (existsb (fun s => String.eqb s (Js.nullish (tc_sessionKey ctx) "default")
                              || String.eqb s "default") (elements stopped) = true)
      as Htrue; [|congruence].
    apply existsb_exists. destruct Hin as [Hin|Hin].
    + exists (Js.nullish (tc_sessionKey ctx) "default"). split.
      * by apply list_elem_of_In, elem_of_elements.
      * by rewrite String.eqb_refl.
    + exists "default". split.
      * by apply list_elem_of_In, elem_of_elements.
      * by rewrite String.eqb_refl, orb_true_r.
Qed.

Lemma interrupter_message_received (event : MessageEvent) (stopped : gset string)
    (x : string) :
  x ∈ Interrupter.message_received event stopped
  ↔ x ∈ stopped
    ∧ ¬ (Js.truthy (meta_senderId event)
         && negb (Js.startsWith (ev_content event) "/stop")
         && negb (Js.startsWith (ev_content event) "/resume") = true
         ∧ x = Js.nullish (meta_senderId event) "").
Proof.
  unfold Interrupter.message_received.
  destruct (Js.truthy (meta_senderId event)); cbn;
    destruct (Js.startsWith (ev_content event) "/stop"),
             (Js.startsWith (ev_content event) "/resume"); cbn;
    try case_bool_decide; cbn;
    rewrite ?elem_of_difference, ?elem_of_singleton;
    intuition congruence.
Qed.

Lemma interrupter_passes_iff (ctx : ToolContext) (stopped : gset string) :
  Interrupter.before_tool_call ctx stopped = None
  ↔ (Js.nullish (tc_sessionKey ctx) "default" ∉ stopped) ∧ ("default" ∉ stopped).
Proof.
  pose proof (interrupter_blocks_iff ctx stopped) as H.
  unfold Interrupter.before_tool_call in *.
  destruct (existsb _ (elements stopped)).
  - split; [done|]. intros [H1 H2]. destruct (proj1 H eq_refl); done.
  - split; [|done]. intros _.
    split; intros Hin;
      [pose proof (proj2 H (or_introl Hin))|pose proof (proj2 H (or_intror Hin))];
      done.
Qed.

(** X24.  The interrupter blocks a tool call exactly when the stopped set
    holds the call's session key (["default"] when the call has none) or
    the key ["default"]; otherwise it returns [undefined]. *)
Theorem X24_interrupter_blocks_iff (ctx : ToolContext) (stopped : gset string) :
  (Interrupter.before_tool_call ctx stopped
   = Some {| block := true; blockReason := Interrupter.BLOCK_REASON |}
   ↔ Js.nullish (tc_sessionKey ctx) "default" ∈ stopped ∨ "default" ∈ stopped)
  ∧ (Interrupter.before_tool_call ctx stopped = None
     ↔ (Js.nullish (tc_sessionKey ctx) "default" ∉ stopped)
       ∧ ("default" ∉ stopped)).
Proof.
  split; [apply interrupter_blocks_iff|apply interrupter_passes_iff].
Qed.

(** X25.  A [stop] command that carries no sender id stops everything:
    afterwards the interrupter blocks the tool calls of every session,
    and keeps doing so across any messages whose sender id is not
    ["default"]. *)
Theorem X25_anonymous_stop_blocks_all
    (command : PluginCommandContext) (stopped : gset string)
    (events : list MessageEvent) (ctx : ToolContext) :
  cc_senderId command = None →
  Forall (fun event => meta_senderId event ≠ Some "default") events →
  Interrupter.before_tool_call ctx
    (foldl (fun s event => Interrupter.message_received event s)
           (Interrupter.stop command stopped).2 events)
  = Some {| block := true; blockReason := Interrupter.BLOCK_REASON |}.
Proof.
  intros Hcmd Hev. apply interrupter_blocks_iff. right.
  assert ("default" ∈ (Interrupter.stop command stopped).2) as Hin.
  { unfold Interrupter.stop. rewrite Hcmd. cbn.
    by apply elem_of_union_l, elem_of_singleton. }
  revert Hin. generalize (Interrupter.stop command stopped).2.
  induction Hev as [|event events Hevent _ IH]; intros s Hin; cbn [foldl]; [done|].
  apply IH. apply interrupter_message_received. split; [done|].
  intros [_ Heq]. destruct (meta_senderId event) as [sender|]; cbn in Heq.
  - by subst sender.
  - done.
Qed.

(** X26.  A [stop] from a sender takes effect only where the session key
    is that sender's id: from an empty stopped set, a [stop] by sender
    [U] other than ["default"] does not block a call whose session key
    differs from [U]. *)
Theorem X26_stop_is_keyed_by_sender
    (command : PluginCommandContext) (ctx : ToolContext) (U : string) :
  cc_senderId command = Some U →
  U ≠ "default" →
  (Interrupter.before_tool_call ctx (Interrupter.stop command ∅).2 = None
   ↔ Js.nullish (tc_sessionKey ctx) "default" ≠ U).
Proof.
  intros Hcmd HU.
  rewrite interrupter_passes_iff. unfold Interrupter.stop. rewrite Hcmd. cbn.
  rewrite !elem_of_union, !elem_of_singleton, !elem_of_empty.
  intuition congruence.
Qed.

(** X27.  The interrupter's state per sender: after [stop] from [U], a
    message from [U] that starts with neither ["/stop"] nor ["/resume"]
    resumes [U], one that does leaves [U] stopped; and [resume] from a
    sender who is not stopped answers so and changes nothing. *)
Theorem X27_interrupter_transitions
    (command : PluginCommandContext) (event : MessageEvent)
    (stopped : gset string) (U : string) :
  U ≠ "" →
  cc_senderId command = Some U →
  meta_senderId event = Some U →
  let s1 := (Interrupter.stop command stopped).2 in
  let s2 := Interrupter.message_received event s1 in
  U ∈ s1
  ∧ (Js.startsWith (ev_content event) "/stop" = false →
     Js.startsWith (ev_content event) "/resume" = false → U ∉ s2)
  ∧ (Js.startsWith (ev_content event) "/stop" = true
     ∨ Js.startsWith (ev_content event) "/resume" = true → U ∈ s2)
  ∧ (U ∉ stopped →
     Interrupter.resume command stopped = (Interrupter.NOT_STOPPED_TEXT, stopped)).
Proof.
  intros HU Hcmd Hev s1 s2. subst s1 s2.
  assert (U ∈ (Interrupter.stop command stopped).2) as Hin.
  { unfold Interrupter.stop. rewrite Hcmd. cbn.
    by apply elem_of_union_l, elem_of_singleton. }
  split; [done|]. split; [|split].
  - intros H1 H2. rewrite interrupter_message_received, Hev, H1, H2.
    rewrite (truthy_Some_intro U HU). cbn. intros [_ Hkeep]. by apply Hkeep.
  - intros Hcommand. apply interrupter_message_received. split; [done|].
    intros [Hclear _]. rewrite !andb_true_iff, !negb_true_iff in Hclear.
    destruct Hclear as [[_ H1] H2], Hcommand; congruence.
  - intros Hnot. unfold Interrupter.resume. rewrite Hcmd. cbn.
    by rewrite bool_decide_eq_false_2.
Qed.

(** * Further worked instances *)

(** Closes a side condition on concrete inputs. *)
Ltac side_condition :=
  first [ reflexivity | discriminate | by_evaluation
        | vm_compute; discriminate
        | let H := fresh in intros H; vm_compute in H; discriminate ].

Lemma X1_extractAgent_roundtrip_witness :
  extractAgentFromSessionKey (Some ("agent:" +:+ "ops" +:+ ":" +:+ "main"))
  = Some "ops"
  ∧ extractAgentFromSessionKey
      (Some ("session:agent:" +:+ "ops" +:+ ":" +:+ "main")) = Some "ops".
Proof. apply (X1_extractAgent_roundtrip "ops" "main"); side_condition. Defined.

Lemma X2_accountName_without_own_account_witness :
  (getClient haltPlugin (Some "agent:dev:main")).2 = "default".
Proof.
  destruct (X2_accountName_without_own_account haltPlugin (Some "agent:dev:main"))
    as [Hname _]; [|exact Hname].
  intros A HA. vm_compute in HA. injection HA as <-. reflexivity.
Defined.

Lemma X3_excluded_tool_skipped_witness :
  before_tool_call plainToolCall serverDown haltPlugin messageCall mainSession
    1000 haltedWorld
  = (Ret None, with_lastSessionKey (Some "agent:ops:main") haltedWorld).
Proof.
  apply (X3_excluded_tool_skipped plainToolCall serverDown haltPlugin haltedWorld
           messageCall mainSession 1000); side_condition.
Defined.

Lemma X4_halt_disabled_never_blocks_witness :
  commandsRegistered scenarioPlugin = false
  ∧ (before_tool_call plainToolCall serverDown scenarioPlugin execCall mainSession
       1000 haltedWorld).1 = Ret None.
Proof.
  destruct (X4_halt_disabled_never_blocks plainToolCall serverDown scenarioPlugin
              scenarioConfig true) as [Hcmd Hcall]; [side_condition..|].
  split; [exact Hcmd|apply Hcall].
Defined.


Lemma X6_successful_direct_post_witness :
  let '(r, w') := before_tool_call plainToolCall serverUp haltPlugin execCall
                    mainSession 1000 linkedWorld in
  r = Ret None
  ∧ postLog w' = [PostToDm "user1" "exec"]
  ∧ pendingCalls w'
    = {["agent:ops:main-exec-1000" :=
          {| postId := Some "post-1"; toolName := "exec"; startTime := 1000 |}]}.
Proof.
  apply (X6_successful_direct_post plainToolCall serverUp haltPlugin linkedWorld
           execCall mainSession 1000 opsClient "ops" "user1" (Some "post-1"));
    side_condition.
Defined.

Lemma X7_unattributed_call_without_webhook_witness :
  before_tool_call plainToolCall serverUp haltPlugin execCall mainSession 1000
    initialWorld
  = (Ret None,
     with_postLog [PostToWebhook "exec"; PostToWebhook "exec"]
       (with_lastSessionKey (Some "agent:ops:main") initialWorld)).
Proof.
  apply (X7_unattributed_call_without_webhook plainToolCall serverUp haltPlugin
           initialWorld execCall mainSession 1000 opsClient "ops");
    side_condition.
Defined.

Lemma X8_at_most_two_posts_witness :
  ∃ added,
    postLog (before_tool_call plainToolCall serverDown haltPlugin execCall
               mainSession 1000 linkedWorld).2
    = (postLog linkedWorld ++ added)%list
    ∧ (length added ≤ 2)%nat
    ∧ ∀ first second, added = [first; second] → second = PostToWebhook "exec".
Proof.
  apply (X8_at_most_two_posts plainToolCall plainToolResult serverDown haltPlugin
           linkedWorld execCall mainSession execResult 1000).
Defined.

Lemma X9_message_without_sender_witness :
  message_received anonymousMessage opsContext 1000 haltedWorld
  = (Ret (), haltedWorld).
Proof.
  apply (X9_message_without_sender haltedWorld anonymousMessage opsContext 1000);
    side_condition.
Defined.

Lemma X10_halt_gate_per_recipient_witness :
  isHalted (halt serverDown haltPlugin user1Command linkedWorld).2 "user2"
  = isHalted linkedWorld "user2"
  ∧ isHalted (message_received helloEvent opsContext 1000 linkedWorld).2 "user2"
    = isHalted linkedWorld "user2".
Proof.
  apply (X10_halt_gate_per_recipient serverDown haltPlugin linkedWorld
           user1Command helloEvent opsContext 1000 "user2"); side_condition.
Defined.

Lemma X11_halt_then_unhalt_witness :
  (unhalt user1Command haltedWorld).1 = Ret RESUMED_TEXT.
Proof.
  apply (X11_halt_then_unhalt serverDown haltPlugin linkedWorld user1Command).
Defined.

Lemma X12_only_halt_grows_halted_set_witness :
  stoppedSessions
    (step plainToolCall plainToolResult serverDown haltPlugin haltedWorld
       otherMessage)
  ⊆ stoppedSessions haltedWorld.
Proof.
  apply (X12_only_halt_grows_halted_set plainToolCall plainToolResult serverDown
           haltPlugin haltedWorld otherMessage).
  intros ctx. discriminate.
Defined.

Lemma X13_result_skipped_witness :
  tool_result_persist plainToolResult serverDown haltPlugin messageResult 2000
    linkedWorld
  = (Ret (), linkedWorld).
Proof.
  apply (X13_result_skipped plainToolResult serverDown haltPlugin linkedWorld
           messageResult 2000).
  right. side_condition.
Defined.

Lemma X15_registered_accounts_have_tokens_witness :
  token {| token := "tokenB"; url := Some "https://chat.example.com" |} ≠ "".
Proof.
  apply (X15_registered_accounts_have_tokens haltConfig true haltPlugin eq_refl
           "Ops Bot").
  cbn. repeat constructor.
Defined.

Lemma X16_config_token_is_default_witness :
  JsMap.get (buildBotAccounts envTokenConfig) "default"
  = Some {| token := "tokenE"; url := computeDefaultBaseUrl envTokenConfig |}.
Proof.
  apply (X16_config_token_is_default envTokenConfig "tokenE"); side_condition.
Defined.

Lemma X17_register_aborts_iff_unconfigured_witness :
  register (mkFullConfig None None emptyPluginConfig emptyEnv) true = None.
Proof.
  apply (X17_register_aborts_iff_unconfigured
           (mkFullConfig None None emptyPluginConfig emptyEnv) true).
  split; [reflexivity|]. split; [reflexivity|]. intros entries H. discriminate H.
Defined.

Lemma X18_reachable_links_wellformed_witness :
  "conv1" ≠ "" ∧ senderId {| senderId := "user1"; timestamp := 0 |} ≠ "".
Proof.
  apply (X18_reachable_links_wellformed plainToolCall plainToolResult serverDown
           haltPlugin [MessageReceived helloEvent opsContext 0] "conv1").
  vm_compute. reflexivity.
Defined.

Lemma X19_webhook_payload_witness :
  let payload := webhookPayload opsClient "exec" None in
  pl_text payload = "exec"
  ∧ pl_icon_emoji payload = Some ":robot:"
  ∧ pl_icon_url payload = None
  ∧ pl_username payload = Some "OpenClaw Agent".
Proof.
  destruct (X19_webhook_payload haltPlugin (Some "agent:ops:main") opsClient "ops"
              "exec" eq_refl) as (Htext & _ & _ & Hemoji & Hname).
  destruct Hemoji as [Hurl Hemoji]; [reflexivity..|].
  split; [exact Htext|]. split; [exact Hemoji|]. split; [exact Hurl|].
  apply Hname. reflexivity.
Defined.

Lemma X20_truncateText_length_witness :
  Formatters.truncateText "hello world" 5 = "hello..."
  ∧ Z.of_nat (String.length (Formatters.truncateText "hello world" 5)) = 5 + 3.
Proof.
  destruct (X20_truncateText_length "hello world" 5) as (_ & Hlong & _); [lia|].
  apply Hlong. vm_compute. reflexivity.
Defined.

Lemma X21_truncateText_idempotent_witness :
  Formatters.truncateText (Formatters.truncateText "hello world" 5) 5
  = Formatters.truncateText "hello world" 5.
Proof. apply (X21_truncateText_idempotent "hello world" 5). lia. Defined.

Lemma X22_truncateLines_lines_witness :
  Formatters.splitLines (Formatters.truncateLines threeLines 2)
  = ["a"; "b"; Formatters.moreLines 1].
Proof.
  destruct (X22_truncateLines_lines threeLines 2) as (_ & Hcut & _).
  apply Hcut. split; [lia|]. vm_compute. reflexivity.
Defined.

Lemma X23_formatParams_bounded_witness :
  (String.length (Formatters.formatParamsCompact sampleParams) ≤ 203)%nat.
Proof.
  destruct X23_formatParams_bounded as [_ Hparams].
  apply Hparams. vm_compute. lia.
Defined.

Lemma X24_interrupter_blocks_iff_witness :
  Interrupter.before_tool_call mainSession {["agent:ops:main"]}
  = Some {| block := true; blockReason := Interrupter.BLOCK_REASON |}.
Proof.
  apply (X24_interrupter_blocks_iff mainSession {["agent:ops:main"]}).
  left. by_evaluation.
Defined.

Lemma X25_anonymous_stop_blocks_all_witness :
  Interrupter.before_tool_call mainSession
    (foldl (fun s event => Interrupter.message_received event s)
           (Interrupter.stop anonymousCommand ∅).2 [helloEvent; haltEcho])
  = Some {| block := true; blockReason := Interrupter.BLOCK_REASON |}.
Proof.
  apply (X25_anonymous_stop_blocks_all anonymousCommand ∅ [helloEvent; haltEcho]
           mainSession); [reflexivity|].
  repeat constructor; discriminate.
Defined.

Lemma X26_stop_is_keyed_by_sender_witness :
  Interrupter.before_tool_call mainSession (Interrupter.stop user1Command ∅).2
  = None.
Proof.
  apply (X26_stop_is_keyed_by_sender user1Command mainSession "user1");
    side_condition.
Defined.

Lemma X27_interrupter_transitions_witness :
  "user1" ∈ (Interrupter.stop user1Command ∅).2
  ∧ "user1" ∉ Interrupter.message_received helloEvent
                 (Interrupter.stop user1Command ∅).2.
Proof.
  destruct (X27_interrupter_transitions user1Command helloEvent ∅ "user1")
    as (Hin & Hclear & _); [side_condition..|].
  split; [exact Hin|]. apply Hclear; reflexivity.
Defined.

Lemma X28_before_tool_call_frame_witness :
  lastSessionKey (before_tool_call plainToolCall serverUp haltPlugin messageCall
                    mainSession 1000 linkedWorld).2
  = Some "agent:ops:main".
Proof.
  apply (X28_before_tool_call_frame plainToolCall serverUp haltPlugin linkedWorld
           messageCall mainSession 1000).
Defined.

Lemma X29_halt_throws_after_halting_witness :
  let '(r, w') := halt serverDown haltPlugin user1Command linkedWorld in
  r = Throw "connection refused"
  ∧ isHalted w' "user1" = true
  ∧ postLog w' = [PostToDm "user1" HALT_TEXT].
Proof.
  apply (X29_halt_throws_after_halting serverDown haltPlugin linkedWorld
           user1Command "user1" defaultClient "connection refused");
    side_condition.
Defined.

Lemma X30_message_link_keys_witness :
  let tbl := sessionSenders linkedWorld in
  tbl !! "agent:ops:main" = Some {| senderId := "user1"; timestamp := 0 |}
  ∧ tbl !! "agent:ops:task7" = None.
Proof.
  destruct (X30_message_link_keys initialWorld helloEvent opsContext 0
              "user1" "conv1" "ops" "agent:ops:task7") as [Hmain Hother];
    [side_condition..|].
  split; [exact Hmain|].
  etransitivity; [apply Hother; side_condition|reflexivity].
Defined.
